(** * Product inventory dashboard: query-state model, remote query compiler,
      debounce hook and category enumeration.

    Shallow embedding of the TypeScript sources

      - [hooks/useDebounce.ts]            (module [UseDebounce])
      - [components/ProductTable.tsx]     (module [ProductTable])
      - [components/Pagination.tsx]       (module [Pagination])
      - [components/FilterPanel.tsx]      (module [FilterPanel])
      - [pages/InventoryPage.tsx]         (module [InventoryPage])
      - the monolithic [App.tsx]          (module [LegacyApp])

    React state cells become fields of a record, event handlers and the
    asynchronous fetches become computations in a state monad over the
    component store, the network log and the console. *)

From Stdlib Require Import String Ascii ZArith List Bool Lia.
From Stdlib Require Import Sorting.Sorted DecimalString.
From ExtLib Require Import Structures.Monad Structures.MonadState.
From ExtLib Require Import Data.Monads.StateMonad.
Import ListNotations.
Import MonadNotation.
Local Open Scope string_scope.
Local Open Scope Z_scope.
Local Open Scope monad_scope.

(* ------------------------------------------------------------------ *)
(** ** JavaScript values used by the sources *)
(* ------------------------------------------------------------------ *)

Module JS.

(** A JavaScript [number] as far as these sources need it.  [Decimal neg m e]
    is the finite value [(-1)^neg * m * 10^e], kept as the decimal that was
    read: the rounding of the mantissa to the binary64 grid is not
    represented, the overflow to [Infinity] is. *)
Inductive number : Type :=
| NaN
| Infinity (neg : bool)
| Decimal (neg : bool) (mantissa : N) (exp10 : Z).

(** The numeric literal [0]. *)
Definition zero : number := Decimal false 0 0.

Definition isFinite (x : number) : bool :=
  match x with
  | Decimal _ _ _ => true
  | _ => false
  end.

(** [ToBoolean] on a string: every string but the empty one is truthy. *)
Definition truthy (s : string) : bool :=
  match s with
  | EmptyString => false
  | String _ _ => true
  end.

(** [a || b] where [a] is an array or [null]: arrays are always truthy. *)
Definition or_array {A : Type} (a : option (list A)) (b : list A) : list A :=
  match a with
  | Some l => l
  | None => b
  end.

(** [a || b] where [a] is an integer-valued number or [null]: [0] is falsy. *)
Definition or_int (a : option Z) (b : Z) : Z :=
  match a with
  | Some n => if n =? 0 then b else n
  | None => b
  end.

(** *** [parseFloat] *)

Definition is_digit (c : ascii) : bool :=
  let n := nat_of_ascii c in (48 <=? n)%nat && (n <=? 57)%nat.

Definition digit_val (c : ascii) : N := N.of_nat (nat_of_ascii c - 48).

(** White space and line terminators of the ASCII range (TAB, LF, VT, FF,
    CR, SP); strings are sequences of 8-bit characters here. *)
Definition is_space (c : ascii) : bool :=
  let n := nat_of_ascii c in
  ((9 <=? n)%nat && (n <=? 13)%nat) || (n =? 32)%nat.

Fixpoint trim_start (s : string) : string :=
  match s with
  | String c r => if is_space c then trim_start r else s
  | EmptyString => s
  end.

(** Reads the longest run of decimal digits: accumulated value, number of
    digits read, and the rest of the input. *)
Fixpoint digits (acc : N) (len : nat) (s : string) : N * nat * string :=
  match s with
  | String c r =>
      if is_digit c then digits (10 * acc + digit_val c)%N (S len) r
      else (acc, len, s)
  | EmptyString => (acc, len, s)
  end.

(** ExponentPart: [e] or [E], an optional sign, at least one digit.  When
    the part is malformed the literal ends before it (exponent 0). *)
Definition exponent_part (s : string) : Z :=
  match s with
  | String c r =>
      if (Ascii.eqb c "e" || Ascii.eqb c "E")%bool then
        let '(sg, r') :=
          match r with
          | String "+" t => (false, t)
          | String "-" t => (true, t)
          | _ => (false, r)
          end in
        let '(v, n, _) := digits 0 0 r' in
        match n with
        | O => 0
        | _ => if sg then - Z.of_N v else Z.of_N v
        end
      else 0
  | EmptyString => 0
  end.

(** Round-to-nearest overflow threshold of binary64: decimals of magnitude
    at least [2^1024 - 2^970] become [Infinity]. *)
Definition overflow_threshold : Z := 2 ^ 1024 - 2 ^ 970.

Definition overflows (m : N) (e : Z) : bool :=
  if 0 <=? e then overflow_threshold <=? Z.of_N m * 10 ^ e
  else overflow_threshold * 10 ^ (- e) <=? Z.of_N m.

Definition of_decimal (neg : bool) (m : N) (e : Z) : number :=
  if overflows m e then Infinity neg else Decimal neg m e.

(** StrUnsignedDecimalLiteral, longest prefix. *)
Definition unsigned_literal (neg : bool) (s : string) : number :=
  if prefix "Infinity" s then Infinity neg
  else
    let '(ip, ilen, r) := digits 0 0 s in
    match r with
    | String "." r1 =>
        let '(m, flen, r2) := digits ip 0 r1 in
        match ilen, flen with
        | O, O => NaN
        | _, _ => of_decimal neg m (exponent_part r2 - Z.of_nat flen)
        end
    | _ =>
        match ilen with
        | O => NaN
        | _ => of_decimal neg ip (exponent_part r)
        end
    end.

Definition parseFloat (s : string) : number :=
  match trim_start s with
  | String "+" r => unsigned_literal false r
  | String "-" r => unsigned_literal true r
  | t => unsigned_literal false t
  end.

End JS.


(* ------------------------------------------------------------------ *)
(** ** The query builder of the remote store client *)
(* ------------------------------------------------------------------ *)

Module Postgrest.

Inductive operator : Type := ilike_op | eq_op | gte_op | lte_op | gt_op.

Inductive operand : Type :=
| Text (s : string)
| Num (x : JS.number).

(** One predicate on a named column; the predicates of a request are
    conjoined by the store. *)
Record Filter : Type := mkFilter
  { column : string; op : operator; arg : operand }.

Inductive CountMode : Type := exact.

(** The request a builder chain denotes. *)
Record Request : Type := mkRequest
  { table : string;
    columns : string;
    count_mode : option CountMode;
    filters : list Filter;
    ordering : list (string * bool);   (* column, ascending *)
    offset : option Z;
    limit : option Z }.

Definition from (t : string) : Request :=
  {| table := t; columns := "*"; count_mode := None; filters := [];
     ordering := []; offset := None; limit := None |}.

Definition select (cols : string) (cnt : option CountMode) (q : Request) : Request :=
  let '(mkRequest t _ _ fs ord off lim) := q in
  mkRequest t cols cnt fs ord off lim.

Definition add_filter (f : Filter) (q : Request) : Request :=
  let '(mkRequest t cols cnt fs ord off lim) := q in
  mkRequest t cols cnt (fs ++ [f]) ord off lim.

Definition ilike (col pattern : string) : Request -> Request :=
  add_filter (mkFilter col ilike_op (Text pattern)).
Definition eq (col value : string) : Request -> Request :=
  add_filter (mkFilter col eq_op (Text value)).
Definition gte (col : string) (value : JS.number) : Request -> Request :=
  add_filter (mkFilter col gte_op (Num value)).
Definition lte (col : string) (value : JS.number) : Request -> Request :=
  add_filter (mkFilter col lte_op (Num value)).
Definition gt (col : string) (value : JS.number) : Request -> Request :=
  add_filter (mkFilter col gt_op (Num value)).

(** [order(col)] defaults to ascending. *)
Definition order (col : string) (ascending : bool) (q : Request) : Request :=
  let '(mkRequest t cols cnt fs ord off lim) := q in
  mkRequest t cols cnt fs (ord ++ [(col, ascending)]) off lim.

(** [range(from, to)] is inclusive at both ends: it sets the offset to
    [from] and the limit to [to - from + 1]. *)
Definition range (from_ to_ : Z) (q : Request) : Request :=
  let '(mkRequest t cols cnt fs ord _ _) := q in
  mkRequest t cols cnt fs ord (Some from_) (Some (to_ - from_ + 1)).

Record PostgrestError : Type := mkError { message : string }.

(** What awaiting a builder resolves to: [{ data, count, error }], each
    possibly [null]. *)
Record Response (Row : Type) : Type := mkResponse
  { data : option (list Row);
    count : option Z;
    error : option PostgrestError }.

Arguments mkResponse {Row} _ _ _.
Arguments data {Row} _.
Arguments count {Row} _.
Arguments error {Row} _.

End Postgrest.

(* ------------------------------------------------------------------ *)
(** ** interface/product_interface.tsx *)
(* ------------------------------------------------------------------ *)

Record Product : Type := mkProduct
  { id : string;
    name : string;
    category : string;
    price : JS.number;
    stock_quantity : Z;
    created_at : string }.

(** A row of [select('category')]. *)
Record CategoryRow : Type := mkCategoryRow { row_category : string }.

Inductive SortOrder : Type := asc | desc.

Definition SortOrder_eqb (a b : SortOrder) : bool :=
  match a, b with
  | asc, asc | desc, desc => true
  | _, _ => false
  end.

(** Modelled from the spec: the module [constants] that exports
    [ITEMS_PER_PAGE] is not among the sources; the page size is "fixed at
    10", the value the monolithic [App.tsx] declares for the same name. *)
Definition ITEMS_PER_PAGE : Z := 10.

(** [Math.ceil(a / b)] for an integer [a] and a positive integer [b] (exact
    on the safe-integer range of counts). *)
Definition Math_ceil_div (a b : Z) : Z := - ((- a) / b).

(** [String(n)] for an integer-valued number. *)
Definition show_int (n : Z) : string := NilZero.string_of_int (Z.to_int n).

(** The argument of a React state setter: a value or an updater function. *)
Inductive SetStateAction (A : Type) : Type :=
| Value (a : A)
| Updater (f : A -> A).

Arguments Value {A} _.
Arguments Updater {A} _.

Definition apply_action {A : Type} (act : SetStateAction A) (old : A) : A :=
  match act with
  | Value a => a
  | Updater f => f old
  end.

(* ------------------------------------------------------------------ *)
(** ** hooks/useDebounce.ts *)
(* ------------------------------------------------------------------ *)

Module UseDebounce.

Section Hook.

Context {T : Type}.
(** Comparison of the dependency [value] between two renders. *)
Variable T_eqb : T -> T -> bool.

(** The cells of one hook instance: the dependencies of the last effect run
    ([value], [delay]), the state cell [debouncedValue], the timer armed by
    the effect and not yet fired or cleared (due time and captured value),
    and the history of [setDebouncedValue] calls with their times. *)
Record Hook : Type := mkHook
  { value : T;
    delay : Z;
    debouncedValue : T;
    timer : option (Z * T);
    propagated : list (Z * T) }.

Definition default_delay : Z := 400.

(** The timers of a browser take their delay as a signed 32-bit integer:
    the number handed over is reduced modulo 2^32 into [-2^31, 2^31). *)
Definition ToInt32 (d : Z) : Z := (d + 2147483648) mod 4294967296 - 2147483648.

(** The milliseconds a timer waits for the delay [d]: the 32-bit delay, a
    negative one counting as 0. *)
Definition timeout_ms (d : Z) : Z := Z.max 0 (ToInt32 d).

(** [setTimeout(cb, delay)] at time [now]: the callback runs
    [timeout_ms delay] milliseconds later. *)
Definition setTimeout (now d : Z) (v : T) : option (Z * T) :=
  Some (now + timeout_ms d, v).

(** The event loop reaching time [now]: a pending timer that is due runs its
    callback [setDebouncedValue(value)]. *)
Definition tick (now : Z) (h : Hook) : Hook :=
  match timer h with
  | Some (due, v) =>
      if due <=? now then
        {| value := value h; delay := delay h; debouncedValue := v;
           timer := None; propagated := propagated h ++ [(due, v)] |}
      else h
  | None => h
  end.

(** First render at time [now]: [useState(value)], then the effect. *)
Definition mount (now : Z) (v : T) (d : Z) : Hook :=
  {| value := v; delay := d; debouncedValue := v;
     timer := setTimeout now d v; propagated := [] |}.

(** A later render at time [now] with input [v] and delay [d]: when a
    dependency changed, the cleanup of the previous effect clears its timer
    and the effect arms a new one. *)
Definition render (now : Z) (v : T) (d : Z) (h : Hook) : Hook :=
  let h := tick now h in
  if T_eqb v (value h) && (d =? delay h) then h
  else
    {| value := v; delay := d; debouncedValue := debouncedValue h;
       timer := setTimeout now d v; propagated := propagated h |}.

(** Unmount: the cleanup clears the pending timer. *)
Definition unmount (now : Z) (h : Hook) : Hook :=
  let h := tick now h in
  {| value := value h; delay := delay h; debouncedValue := debouncedValue h;
     timer := None; propagated := propagated h |}.

(** A hook whose last effect ran at time [t0] and whose timer is pending. *)
Definition armed (t0 : Z) (h : Hook) : Prop :=
  timer h = Some (t0 + timeout_ms (delay h), value h).

(** The hook's return value. *)
Definition useDebounce (h : Hook) : T := debouncedValue h.

(** A sequence of timed input changes, the delay left as it is. *)
Definition changes (l : list (Z * T)) (h : Hook) : Hook :=
  fold_left (fun h e => render (fst e) (snd e) (delay h) h) l h.

(** A burst after the change [(t0, v0)]: every entry changes the value and
    comes less than [d] after the previous one. *)
Fixpoint burst (d t0 : Z) (v0 : T) (l : list (Z * T)) : Prop :=
  match l with
  | [] => True
  | (t, v) :: r => t0 <= t /\ t - t0 < d /\ T_eqb v v0 = false /\ burst d t v r
  end.

End Hook.

Arguments Hook T : clear implicits.
Arguments timeout_ms : simpl never.

End UseDebounce.

(* ------------------------------------------------------------------ *)
(** ** components/ProductTable.tsx *)
(* ------------------------------------------------------------------ *)

Module ProductTable.

(** Column display labels mapped to column names of the store. *)
Definition COLUMNS : list (string * string) :=
  [ ("Name", "name");
    ("Category", "category");
    ("Price", "price");
    ("Stock", "stock_quantity");
    ("Created At", "created_at") ].

Section Props.

Context {m : Type -> Type} {Monad_m : Monad m}.
Variable sortBy : string.
Variable sortOrder : SortOrder.
Variable setSortBy : string -> m unit.
Variable setSortOrder : SortOrder -> m unit.

Definition handleSort (colKey : string) : m unit :=
  setSortOrder
    (if (sortBy =? colKey)%string && SortOrder_eqb sortOrder asc then desc else asc) ;;
  setSortBy colKey.

Definition isActive (colKey : string) : bool := (sortBy =? colKey)%string.

End Props.

End ProductTable.

(* ------------------------------------------------------------------ *)
(** ** components/Pagination.tsx *)
(* ------------------------------------------------------------------ *)

Module Pagination.

Section Props.

Context {m : Type -> Type} {Monad_m : Monad m}.
Variable page : Z.
Variable totalPages : Z.
Variable totalCount : Z.
Variable setPage : SetStateAction Z -> m unit.

Definition rangeFrom : Z := Z.min ((page - 1) * ITEMS_PER_PAGE + 1) totalCount.
Definition rangeTo : Z := Z.min (page * ITEMS_PER_PAGE) totalCount.

(** The text between the two buttons. *)
Definition pageLabel : string :=
  "Page " ++ show_int page ++ " of " ++ show_int totalPages.

Definition prevDisabled : bool := page =? 1.
Definition nextDisabled : bool := page =? totalPages.

(** A click reaches [onClick] only when the button is not disabled. *)
Definition clickPrev : m unit :=
  if prevDisabled then ret tt else setPage (Updater (fun p => p - 1)).

Definition clickNext : m unit :=
  if nextDisabled then ret tt else setPage (Updater (fun p => p + 1)).

End Props.

End Pagination.

(* ------------------------------------------------------------------ *)
(** ** components/FilterPanel.tsx *)
(* ------------------------------------------------------------------ *)

Module FilterPanel.

Section Props.

Context {m : Type -> Type} {Monad_m : Monad m}.
Variable setSearch : string -> m unit.
Variable setCategory : string -> m unit.
Variable setMinPrice : string -> m unit.
Variable setMaxPrice : string -> m unit.
Variable setInStockOnly : bool -> m unit.
Variable categories : list string.
Variable setPage : Z -> m unit.
Variable clearFilters : m unit.

(** The [onChange] handlers of the five controls and the Clear button. *)
Definition onChangeSearch (v : string) : m unit := setSearch v ;; setPage 1.
Definition onChangeCategory (v : string) : m unit := setCategory v ;; setPage 1.
Definition onChangeMinPrice (v : string) : m unit := setMinPrice v.
Definition onChangeMaxPrice (v : string) : m unit := setMaxPrice v.
Definition onChangeInStockOnly (checked : bool) : m unit := setInStockOnly checked.
Definition onClickClear : m unit := clearFilters.

(** The values offered by the category dropdown. *)
Definition categoryOptions : list string := "All" :: categories.

End Props.

End FilterPanel.

(* ------------------------------------------------------------------ *)
(** ** pages/InventoryPage.tsx *)
(* ------------------------------------------------------------------ *)

Module InventoryPage.

(** The [useState] cells of the component, in declaration order, and the
    three [useDebounce] instances. *)
Record Store : Type := mkStore
  { products : list Product;
    loading : bool;
    error : option string;
    totalCount : Z;
    page : Z;
    categories : list string;
    search : string;
    category : string;
    minPrice : string;
    maxPrice : string;
    inStockOnly : bool;
    sortBy : string;
    sortOrder : SortOrder;
    search_debounce : UseDebounce.Hook string;
    minPrice_debounce : UseDebounce.Hook string;
    maxPrice_debounce : UseDebounce.Hook string }.

(** Functional update of one cell. *)
Definition with_products (v : list Product) (s : Store) : Store :=
  {| products := v; loading := loading s; error := error s; totalCount :=
     totalCount s; page := page s; categories := categories s; search :=
     search s; category := category s; minPrice := minPrice s; maxPrice :=
     maxPrice s; inStockOnly := inStockOnly s; sortBy := sortBy s; sortOrder
     := sortOrder s; search_debounce := search_debounce s; minPrice_debounce
     := minPrice_debounce s; maxPrice_debounce := maxPrice_debounce s |}.
Definition with_loading (v : bool) (s : Store) : Store :=
  {| products := products s; loading := v; error := error s; totalCount :=
     totalCount s; page := page s; categories := categories s; search :=
     search s; category := category s; minPrice := minPrice s; maxPrice :=
     maxPrice s; inStockOnly := inStockOnly s; sortBy := sortBy s; sortOrder
     := sortOrder s; search_debounce := search_debounce s; minPrice_debounce
     := minPrice_debounce s; maxPrice_debounce := maxPrice_debounce s |}.
Definition with_error (v : option string) (s : Store) : Store :=
  {| products := products s; loading := loading s; error := v; totalCount :=
     totalCount s; page := page s; categories := categories s; search :=
     search s; category := category s; minPrice := minPrice s; maxPrice :=
     maxPrice s; inStockOnly := inStockOnly s; sortBy := sortBy s; sortOrder
     := sortOrder s; search_debounce := search_debounce s; minPrice_debounce
     := minPrice_debounce s; maxPrice_debounce := maxPrice_debounce s |}.
Definition with_totalCount (v : Z) (s : Store) : Store :=
  {| products := products s; loading := loading s; error := error s;
     totalCount := v; page := page s; categories := categories s; search :=
     search s; category := category s; minPrice := minPrice s; maxPrice :=
     maxPrice s; inStockOnly := inStockOnly s; sortBy := sortBy s; sortOrder
     := sortOrder s; search_debounce := search_debounce s; minPrice_debounce
     := minPrice_debounce s; maxPrice_debounce := maxPrice_debounce s |}.
Definition with_page (v : Z) (s : Store) : Store :=
  {| products := products s; loading := loading s; error := error s;
     totalCount := totalCount s; page := v; categories := categories s;
     search := search s; category := category s; minPrice := minPrice s;
     maxPrice := maxPrice s; inStockOnly := inStockOnly s; sortBy := sortBy
     s; sortOrder := sortOrder s; search_debounce := search_debounce s;
     minPrice_debounce := minPrice_debounce s; maxPrice_debounce :=
     maxPrice_debounce s |}.
Definition with_categories (v : list string) (s : Store) : Store :=
  {| products := products s; loading := loading s; error := error s;
     totalCount := totalCount s; page := page s; categories := v; search :=
     search s; category := category s; minPrice := minPrice s; maxPrice :=
     maxPrice s; inStockOnly := inStockOnly s; sortBy := sortBy s; sortOrder
     := sortOrder s; search_debounce := search_debounce s; minPrice_debounce
     := minPrice_debounce s; maxPrice_debounce := maxPrice_debounce s |}.
Definition with_search (v : string) (s : Store) : Store :=
  {| products := products s; loading := loading s; error := error s;
     totalCount := totalCount s; page := page s; categories := categories s;
     search := v; category := category s; minPrice := minPrice s; maxPrice
     := maxPrice s; inStockOnly := inStockOnly s; sortBy := sortBy s;
     sortOrder := sortOrder s; search_debounce := search_debounce s;
     minPrice_debounce := minPrice_debounce s; maxPrice_debounce :=
     maxPrice_debounce s |}.
Definition with_category (v : string) (s : Store) : Store :=
  {| products := products s; loading := loading s; error := error s;
     totalCount := totalCount s; page := page s; categories := categories s;
     search := search s; category := v; minPrice := minPrice s; maxPrice :=
     maxPrice s; inStockOnly := inStockOnly s; sortBy := sortBy s; sortOrder
     := sortOrder s; search_debounce := search_debounce s; minPrice_debounce
     := minPrice_debounce s; maxPrice_debounce := maxPrice_debounce s |}.
Definition with_minPrice (v : string) (s : Store) : Store :=
  {| products := products s; loading := loading s; error := error s;
     totalCount := totalCount s; page := page s; categories := categories s;
     search := search s; category := category s; minPrice := v; maxPrice :=
     maxPrice s; inStockOnly := inStockOnly s; sortBy := sortBy s; sortOrder
     := sortOrder s; search_debounce := search_debounce s; minPrice_debounce
     := minPrice_debounce s; maxPrice_debounce := maxPrice_debounce s |}.
Definition with_maxPrice (v : string) (s : Store) : Store :=
  {| products := products s; loading := loading s; error := error s;
     totalCount := totalCount s; page := page s; categories := categories s;
     search := search s; category := category s; minPrice := minPrice s;
     maxPrice := v; inStockOnly := inStockOnly s; sortBy := sortBy s;
     sortOrder := sortOrder s; search_debounce := search_debounce s;
     minPrice_debounce := minPrice_debounce s; maxPrice_debounce :=
     maxPrice_debounce s |}.
Definition with_inStockOnly (v : bool) (s : Store) : Store :=
  {| products := products s; loading := loading s; error := error s;
     totalCount := totalCount s; page := page s; categories := categories s;
     search := search s; category := category s; minPrice := minPrice s;
     maxPrice := maxPrice s; inStockOnly := v; sortBy := sortBy s; sortOrder
     := sortOrder s; search_debounce := search_debounce s; minPrice_debounce
     := minPrice_debounce s; maxPrice_debounce := maxPrice_debounce s |}.
Definition with_sortBy (v : string) (s : Store) : Store :=
  {| products := products s; loading := loading s; error := error s;
     totalCount := totalCount s; page := page s; categories := categories s;
     search := search s; category := category s; minPrice := minPrice s;
     maxPrice := maxPrice s; inStockOnly := inStockOnly s; sortBy := v;
     sortOrder := sortOrder s; search_debounce := search_debounce s;
     minPrice_debounce := minPrice_debounce s; maxPrice_debounce :=
     maxPrice_debounce s |}.
Definition with_sortOrder (v : SortOrder) (s : Store) : Store :=
  {| products := products s; loading := loading s; error := error s;
     totalCount := totalCount s; page := page s; categories := categories s;
     search := search s; category := category s; minPrice := minPrice s;
     maxPrice := maxPrice s; inStockOnly := inStockOnly s; sortBy := sortBy
     s; sortOrder := v; search_debounce := search_debounce s;
     minPrice_debounce := minPrice_debounce s; maxPrice_debounce :=
     maxPrice_debounce s |}.
Definition with_search_debounce (v : UseDebounce.Hook string) (s : Store) : Store :=
  {| products := products s; loading := loading s; error := error s;
     totalCount := totalCount s; page := page s; categories := categories s;
     search := search s; category := category s; minPrice := minPrice s;
     maxPrice := maxPrice s; inStockOnly := inStockOnly s; sortBy := sortBy
     s; sortOrder := sortOrder s; search_debounce := v; minPrice_debounce :=
     minPrice_debounce s; maxPrice_debounce := maxPrice_debounce s |}.
Definition with_minPrice_debounce (v : UseDebounce.Hook string) (s : Store) : Store :=
  {| products := products s; loading := loading s; error := error s;
     totalCount := totalCount s; page := page s; categories := categories s;
     search := search s; category := category s; minPrice := minPrice s;
     maxPrice := maxPrice s; inStockOnly := inStockOnly s; sortBy := sortBy
     s; sortOrder := sortOrder s; search_debounce := search_debounce s;
     minPrice_debounce := v; maxPrice_debounce := maxPrice_debounce s |}.
Definition with_maxPrice_debounce (v : UseDebounce.Hook string) (s : Store) : Store :=
  {| products := products s; loading := loading s; error := error s;
     totalCount := totalCount s; page := page s; categories := categories s;
     search := search s; category := category s; minPrice := minPrice s;
     maxPrice := maxPrice s; inStockOnly := inStockOnly s; sortBy := sortBy
     s; sortOrder := sortOrder s; search_debounce := search_debounce s;
     minPrice_debounce := minPrice_debounce s; maxPrice_debounce := v |}.

(** Debounced filter values: what the three hooks return in a render. *)
Definition debouncedSearch (s : Store) : string :=
  UseDebounce.useDebounce (search_debounce s).
Definition debouncedMinPrice (s : Store) : string :=
  UseDebounce.useDebounce (minPrice_debounce s).
Definition debouncedMaxPrice (s : Store) : string :=
  UseDebounce.useDebounce (maxPrice_debounce s).

(** The component store, the requests sent to the remote store so far, and
    the lines written with [console.error]. *)
Record World : Type := mkWorld
  { store : Store;
    sent : list Postgrest.Request;
    console : list (string * string) }.

Definition M : Type -> Type := state World.

Definition setState (f : Store -> Store) : M unit :=
  w <- get ;;
  put {| store := f (store w); sent := sent w; console := console w |}.

Definition setProducts (v : list Product) : M unit := setState (with_products v).
Definition setLoading (v : bool) : M unit := setState (with_loading v).
Definition setError (v : option string) : M unit := setState (with_error v).
Definition setTotalCount (v : Z) : M unit := setState (with_totalCount v).
Definition setPage (a : SetStateAction Z) : M unit :=
  setState (fun s => with_page (apply_action a (page s)) s).
Definition setCategories (v : list string) : M unit := setState (with_categories v).
Definition setSearch (v : string) : M unit := setState (with_search v).
Definition setCategory (v : string) : M unit := setState (with_category v).
Definition setMinPrice (v : string) : M unit := setState (with_minPrice v).
Definition setMaxPrice (v : string) : M unit := setState (with_maxPrice v).
Definition setInStockOnly (v : bool) : M unit := setState (with_inStockOnly v).
Definition setSortBy (v : string) : M unit := setState (with_sortBy v).
Definition setSortOrder (v : SortOrder) : M unit := setState (with_sortOrder v).

Definition console_error (label detail : string) : M unit :=
  w <- get ;;
  put {| store := store w; sent := sent w;
         console := console w ++ [(label, detail)] |}.

(** The state of the first render at time [now]. *)
Definition initial (now : Z) : Store :=
  {| products := []; loading := true; error := None; totalCount := 0;
     page := 1; categories := [];
     search := ""; category := "All"; minPrice := ""; maxPrice := "";
     inStockOnly := false; sortBy := "name"; sortOrder := asc;
     search_debounce := UseDebounce.mount now "" 400;
     minPrice_debounce := UseDebounce.mount now "" 400;
     maxPrice_debounce := UseDebounce.mount now "" 400 |}.

(** The three [useDebounce(_, 400)] calls of a re-render at time [now]. *)
Definition rerender (now : Z) (s : Store) : Store :=
  with_search_debounce
    (UseDebounce.render String.eqb now (search s) 400 (search_debounce s))
    (with_minPrice_debounce
       (UseDebounce.render String.eqb now (minPrice s) 400 (minPrice_debounce s))
       (with_maxPrice_debounce
          (UseDebounce.render String.eqb now (maxPrice s) 400 (maxPrice_debounce s))
          s)).

(** [new Set(xs)] spread back into an array: the distinct elements in the
    order of their first occurrence. *)
Definition Set_add (acc : list string) (x : string) : list string :=
  if existsb (String.eqb x) acc then acc else acc ++ [x].

Definition Set_spread (xs : list string) : list string :=
  fold_left Set_add xs [].

Section Remote.

(** The remote store: the response to the [n]-th request of the session. *)
Variable remote_products : nat -> Postgrest.Request -> Postgrest.Response Product.
Variable remote_categories : nat -> Postgrest.Request -> Postgrest.Response CategoryRow.

(** [await query]: one round trip. *)
Definition await_products (q : Postgrest.Request) : M (Postgrest.Response Product) :=
  w <- get ;;
  put {| store := store w; sent := sent w ++ [q]; console := console w |} ;;
  ret (remote_products (length (sent w)) q).

Definition await_categories (q : Postgrest.Request)
  : M (Postgrest.Response CategoryRow) :=
  w <- get ;;
  put {| store := store w; sent := sent w ++ [q]; console := console w |} ;;
  ret (remote_categories (length (sent w)) q).

(** [fetchProducts] as created by the render [r]: the filter, sort and page
    values are those the closure captured. *)
Definition fetchProducts (r : Store) : M unit :=
  setLoading true ;;
  setError None ;;
  let query := Postgrest.select "*" (Some Postgrest.exact) (Postgrest.from "products") in
  let query :=
    if JS.truthy (debouncedSearch r)
    then Postgrest.ilike "name" ("%" ++ debouncedSearch r ++ "%") query else query in
  let query :=
    if negb (category r =? "All")%string
    then Postgrest.eq "category" (category r) query else query in
  let query :=
    if JS.truthy (debouncedMinPrice r)
    then Postgrest.gte "price" (JS.parseFloat (debouncedMinPrice r)) query else query in
  let query :=
    if JS.truthy (debouncedMaxPrice r)
    then Postgrest.lte "price" (JS.parseFloat (debouncedMaxPrice r)) query else query in
  let query :=
    if inStockOnly r then Postgrest.gt "stock_quantity" JS.zero query else query in
  let query := Postgrest.order (sortBy r) (SortOrder_eqb (sortOrder r) asc) query in
  let from_ := (page r - 1) * ITEMS_PER_PAGE in
  let to_ := from_ + ITEMS_PER_PAGE - 1 in
  let query := Postgrest.range from_ to_ query in
  resp <- await_products query ;;
  match Postgrest.error resp with
  | Some e =>
      setError (Some "Failed to load products. Please check your connection and try again.") ;;
      console_error "Supabase fetch error:" (Postgrest.message e)
  | None =>
      setProducts (JS.or_array (Postgrest.data resp) []) ;;
      setTotalCount (JS.or_int (Postgrest.count resp) 0)
  end ;;
  setLoading false.

(** The effect with the empty dependency list. *)
Definition fetchCategories : M unit :=
  resp <- await_categories
            (Postgrest.order "category" true
               (Postgrest.select "category" None (Postgrest.from "products"))) ;;
  match Postgrest.data resp with
  | Some d =>
      let unique := Set_spread (map row_category d) in
      setCategories unique
  | None => ret tt
  end.

(** The dependency list of [useCallback]: [fetchProducts] is a new function
    exactly when one of these differs from the previous render. *)
Definition same_deps (a b : Store) : bool :=
  (page a =? page b)
  && (debouncedSearch a =? debouncedSearch b)%string
  && (category a =? category b)%string
  && (debouncedMinPrice a =? debouncedMinPrice b)%string
  && (debouncedMaxPrice a =? debouncedMaxPrice b)%string
  && Bool.eqb (inStockOnly a) (inStockOnly b)
  && (sortBy a =? sortBy b)%string
  && SortOrder_eqb (sortOrder a) (sortOrder b).

(** Effects of the first render, in declaration order. *)
Definition mount_effects (r : Store) : M unit :=
  fetchCategories ;; fetchProducts r.

(** Effects of a later render [r] following the render [prev]. *)
Definition update_effects (prev r : Store) : M unit :=
  if same_deps prev r then ret tt else fetchProducts r.

End Remote.

Definition totalPages (s : Store) : Z := Math_ceil_div (totalCount s) ITEMS_PER_PAGE.

(** Resets all filters and returns to the first page. *)
Definition clearFilters : M unit :=
  setSearch "" ;;
  setCategory "All" ;;
  setMinPrice "" ;;
  setMaxPrice "" ;;
  setInStockOnly false ;;
  setPage (Value 1).

(** Props handed to the children in a render [r]. *)
Definition filterPanel_onChangeSearch : string -> M unit :=
  FilterPanel.onChangeSearch setSearch (fun p => setPage (Value p)).
Definition filterPanel_onChangeCategory : string -> M unit :=
  FilterPanel.onChangeCategory setCategory (fun p => setPage (Value p)).
Definition filterPanel_onChangeMinPrice : string -> M unit :=
  FilterPanel.onChangeMinPrice setMinPrice.
Definition filterPanel_onChangeMaxPrice : string -> M unit :=
  FilterPanel.onChangeMaxPrice setMaxPrice.
Definition filterPanel_onChangeInStockOnly : bool -> M unit :=
  FilterPanel.onChangeInStockOnly setInStockOnly.
Definition filterPanel_onClickClear : M unit :=
  FilterPanel.onClickClear clearFilters.
Definition filterPanel_categoryOptions (r : Store) : list string :=
  FilterPanel.categoryOptions (categories r).

Definition productTable_handleSort (r : Store) : string -> M unit :=
  ProductTable.handleSort (sortBy r) (sortOrder r) setSortBy setSortOrder.

Definition pagination_clickPrev (r : Store) : M unit :=
  Pagination.clickPrev (page r) setPage.
Definition pagination_clickNext (r : Store) : M unit :=
  Pagination.clickNext (page r) (totalPages r) setPage.
Definition pagination_pageLabel (r : Store) : string :=
  Pagination.pageLabel (page r) (totalPages r).
Definition pagination_nextDisabled (r : Store) : bool :=
  Pagination.nextDisabled (page r) (totalPages r).

(** An event handler [h] run on the store [s]: the store of the next render. *)
Definition handle (h : M unit) (s : Store) : Store :=
  store (execState h {| store := s; sent := []; console := [] |}).

End InventoryPage.

(* ------------------------------------------------------------------ *)
(** ** The monolithic App.tsx (one component, no debounce) *)
(* ------------------------------------------------------------------ *)

(** [s.toLowerCase()] on the ASCII range. *)
Definition lower_char (c : ascii) : ascii :=
  let n := nat_of_ascii c in
  if ((65 <=? n)%nat && (n <=? 90)%nat)%bool then ascii_of_nat (n + 32) else c.

Fixpoint toLowerCase (s : string) : string :=
  match s with
  | EmptyString => EmptyString
  | String c r => String (lower_char c) (toLowerCase r)
  end.

(** [s.replace(a, b)] for one-character strings: the first occurrence only. *)
Fixpoint replace_char (a b : ascii) (s : string) : string :=
  match s with
  | EmptyString => EmptyString
  | String c r => if Ascii.eqb c a then String b r else String c (replace_char a b r)
  end.

Module LegacyApp.

(** Number of products to display per page. *)
Definition ITEMS_PER_PAGE : Z := 10.

Record Store : Type := mkStore
  { products : list Product;
    loading : bool;
    error : option string;
    totalCount : Z;
    page : Z;
    search : string;
    category : string;
    minPrice : string;
    maxPrice : string;
    inStockOnly : bool;
    sortBy : string;
    sortOrder : SortOrder }.

Definition with_products (v : list Product) (s : Store) : Store :=
  {| products := v; loading := loading s; error := error s; totalCount :=
     totalCount s; page := page s; search := search s; category := category
     s; minPrice := minPrice s; maxPrice := maxPrice s; inStockOnly :=
     inStockOnly s; sortBy := sortBy s; sortOrder := sortOrder s |}.
Definition with_loading (v : bool) (s : Store) : Store :=
  {| products := products s; loading := v; error := error s; totalCount :=
     totalCount s; page := page s; search := search s; category := category
     s; minPrice := minPrice s; maxPrice := maxPrice s; inStockOnly :=
     inStockOnly s; sortBy := sortBy s; sortOrder := sortOrder s |}.
Definition with_error (v : option string) (s : Store) : Store :=
  {| products := products s; loading := loading s; error := v; totalCount :=
     totalCount s; page := page s; search := search s; category := category
     s; minPrice := minPrice s; maxPrice := maxPrice s; inStockOnly :=
     inStockOnly s; sortBy := sortBy s; sortOrder := sortOrder s |}.
Definition with_totalCount (v : Z) (s : Store) : Store :=
  {| products := products s; loading := loading s; error := error s;
     totalCount := v; page := page s; search := search s; category :=
     category s; minPrice := minPrice s; maxPrice := maxPrice s; inStockOnly
     := inStockOnly s; sortBy := sortBy s; sortOrder := sortOrder s |}.
Definition with_page (v : Z) (s : Store) : Store :=
  {| products := products s; loading := loading s; error := error s;
     totalCount := totalCount s; page := v; search := search s; category :=
     category s; minPrice := minPrice s; maxPrice := maxPrice s; inStockOnly
     := inStockOnly s; sortBy := sortBy s; sortOrder := sortOrder s |}.
Definition with_search (v : string) (s : Store) : Store :=
  {| products := products s; loading := loading s; error := error s;
     totalCount := totalCount s; page := page s; search := v; category :=
     category s; minPrice := minPrice s; maxPrice := maxPrice s; inStockOnly
     := inStockOnly s; sortBy := sortBy s; sortOrder := sortOrder s |}.
Definition with_category (v : string) (s : Store) : Store :=
  {| products := products s; loading := loading s; error := error s;
     totalCount := totalCount s; page := page s; search := search s;
     category := v; minPrice := minPrice s; maxPrice := maxPrice s;
     inStockOnly := inStockOnly s; sortBy := sortBy s; sortOrder :=
     sortOrder s |}.
Definition with_minPrice (v : string) (s : Store) : Store :=
  {| products := products s; loading := loading s; error := error s;
     totalCount := totalCount s; page := page s; search := search s;
     category := category s; minPrice := v; maxPrice := maxPrice s;
     inStockOnly := inStockOnly s; sortBy := sortBy s; sortOrder :=
     sortOrder s |}.
Definition with_maxPrice (v : string) (s : Store) : Store :=
  {| products := products s; loading := loading s; error := error s;
     totalCount := totalCount s; page := page s; search := search s;
     category := category s; minPrice := minPrice s; maxPrice := v;
     inStockOnly := inStockOnly s; sortBy := sortBy s; sortOrder :=
     sortOrder s |}.
Definition with_inStockOnly (v : bool) (s : Store) : Store :=
  {| products := products s; loading := loading s; error := error s;
     totalCount := totalCount s; page := page s; search := search s;
     category := category s; minPrice := minPrice s; maxPrice := maxPrice s;
     inStockOnly := v; sortBy := sortBy s; sortOrder := sortOrder s |}.
Definition with_sortBy (v : string) (s : Store) : Store :=
  {| products := products s; loading := loading s; error := error s;
     totalCount := totalCount s; page := page s; search := search s;
     category := category s; minPrice := minPrice s; maxPrice := maxPrice s;
     inStockOnly := inStockOnly s; sortBy := v; sortOrder := sortOrder s |}.
Definition with_sortOrder (v : SortOrder) (s : Store) : Store :=
  {| products := products s; loading := loading s; error := error s;
     totalCount := totalCount s; page := page s; search := search s;
     category := category s; minPrice := minPrice s; maxPrice := maxPrice s;
     inStockOnly := inStockOnly s; sortBy := sortBy s; sortOrder := v |}.

Record World : Type := mkWorld
  { store : Store;
    sent : list Postgrest.Request;
    console : list (string * string) }.

Definition M : Type -> Type := state World.

Definition setState (f : Store -> Store) : M unit :=
  w <- get ;;
  put {| store := f (store w); sent := sent w; console := console w |}.

Definition setProducts (v : list Product) : M unit := setState (with_products v).
Definition setLoading (v : bool) : M unit := setState (with_loading v).
Definition setError (v : option string) : M unit := setState (with_error v).
Definition setTotalCount (v : Z) : M unit := setState (with_totalCount v).
Definition setPage (a : SetStateAction Z) : M unit :=
  setState (fun s => with_page (apply_action a (page s)) s).
Definition setSearch (v : string) : M unit := setState (with_search v).
Definition setCategory (v : string) : M unit := setState (with_category v).
Definition setMinPrice (v : string) : M unit := setState (with_minPrice v).
Definition setMaxPrice (v : string) : M unit := setState (with_maxPrice v).
Definition setInStockOnly (v : bool) : M unit := setState (with_inStockOnly v).
Definition setSortBy (v : string) : M unit := setState (with_sortBy v).
Definition setSortOrder (v : SortOrder) : M unit := setState (with_sortOrder v).

Definition console_error (label detail : string) : M unit :=
  w <- get ;;
  put {| store := store w; sent := sent w;
         console := console w ++ [(label, detail)] |}.

Definition initial : Store :=
  {| products := []; loading := true; error := None; totalCount := 0;
     page := 1;
     search := ""; category := "All"; minPrice := ""; maxPrice := "";
     inStockOnly := false; sortBy := "name"; sortOrder := asc |}.

Section Remote.

Variable remote_products : nat -> Postgrest.Request -> Postgrest.Response Product.

Definition await_products (q : Postgrest.Request) : M (Postgrest.Response Product) :=
  w <- get ;;
  put {| store := store w; sent := sent w ++ [q]; console := console w |} ;;
  ret (remote_products (length (sent w)) q).

(** The inline [fetchProducts] as created by the render [r]. *)
Definition fetchProducts (r : Store) : M unit :=
  setLoading true ;;
  setError None ;;
  let query := Postgrest.select "*" (Some Postgrest.exact) (Postgrest.from "products") in
  let query :=
    if JS.truthy (search r)
    then Postgrest.ilike "name" ("%" ++ search r ++ "%") query else query in
  let query :=
    if negb (category r =? "All")%string
    then Postgrest.eq "category" (category r) query else query in
  let query :=
    if JS.truthy (minPrice r)
    then Postgrest.gte "price" (JS.parseFloat (minPrice r)) query else query in
  let query :=
    if JS.truthy (maxPrice r)
    then Postgrest.lte "price" (JS.parseFloat (maxPrice r)) query else query in
  let query :=
    if inStockOnly r then Postgrest.gt "stock_quantity" JS.zero query else query in
  let query := Postgrest.order (sortBy r) (SortOrder_eqb (sortOrder r) asc) query in
  let from_ := (page r - 1) * ITEMS_PER_PAGE in
  let to_ := from_ + ITEMS_PER_PAGE - 1 in
  let query := Postgrest.range from_ to_ query in
  resp <- await_products query ;;
  match Postgrest.error resp with
  | Some e =>
      setError (Some "Failed to load products. Please check your connection and try again.") ;;
      console_error "Supabase fetch error:" (Postgrest.message e)
  | None =>
      setProducts (JS.or_array (Postgrest.data resp) []) ;;
      setTotalCount (JS.or_int (Postgrest.count resp) 0)
  end ;;
  setLoading false.

End Remote.

Definition totalPages (s : Store) : Z := Math_ceil_div (totalCount s) ITEMS_PER_PAGE.

(** Resets all filter and sort states back to their defaults
    and returns the user to the first page. *)
Definition clearFilters : M unit :=
  setSearch "" ;;
  setCategory "All" ;;
  setMinPrice "" ;;
  setMaxPrice "" ;;
  setInStockOnly false ;;
  setPage (Value 1).

(** The [onChange] handlers of the filter controls. *)
Definition onChangeSearch (v : string) : M unit := setSearch v ;; setPage (Value 1).
Definition onChangeCategory (v : string) : M unit := setCategory v ;; setPage (Value 1).
Definition onChangeMinPrice (v : string) : M unit := setMinPrice v.
Definition onChangeMaxPrice (v : string) : M unit := setMaxPrice v.
Definition onChangeInStockOnly (checked : bool) : M unit := setInStockOnly checked.

Definition headers : list string :=
  ["Name"; "Category"; "Price"; "Stock"; "Created At"].

(** The [onClick] handler of the column header [header] in the render [r]. *)
Definition onClickHeader (r : Store) (header : string) : M unit :=
  let col := replace_char " " "_" (toLowerCase header) in
  setSortOrder
    (if (sortBy r =? col)%string && SortOrder_eqb (sortOrder r) asc then desc else asc) ;;
  setSortBy
    (if (col =? "stock")%string then "stock_quantity"
     else if (col =? "name")%string then "name" else col).

Definition pageLabel (r : Store) : string :=
  "Page " ++ show_int (page r) ++ " of " ++ show_int (totalPages r).
Definition prevDisabled (r : Store) : bool := page r =? 1.
Definition nextDisabled (r : Store) : bool := page r =? totalPages r.
Definition clickPrev (r : Store) : M unit :=
  if prevDisabled r then ret tt else setPage (Updater (fun p => p - 1)).
Definition clickNext (r : Store) : M unit :=
  if nextDisabled r then ret tt else setPage (Updater (fun p => p + 1)).

Definition handle (h : M unit) (s : Store) : Store :=
  store (execState h {| store := s; sent := []; console := [] |}).

End LegacyApp.

(* ------------------------------------------------------------------ *)
(** ** The reference request of the specification *)
(* ------------------------------------------------------------------ *)

Module Spec.

(** The eight user-adjustable fields that drive one fetch. *)
Record QueryState : Type := mkQueryState
  { search : string;
    category : string;
    minPrice : string;
    maxPrice : string;
    inStockOnly : bool;
    sortField : string;
    sortDirection : SortOrder;
    page : Z }.

Definition pageSize : Z := 10.

Definition non_empty (s : string) : bool := negb (s =? "")%string.

(** Compilation rules 1 to 5, conjoined. *)
Definition predicates (s : QueryState) : list Postgrest.Filter :=
  (if non_empty (search s)
   then [Postgrest.mkFilter "name" Postgrest.ilike_op
           (Postgrest.Text ("%" ++ search s ++ "%"))] else [])
  ++ (if (category s =? "All")%string then []
      else [Postgrest.mkFilter "category" Postgrest.eq_op
              (Postgrest.Text (category s))])
  ++ (if non_empty (minPrice s)
      then [Postgrest.mkFilter "price" Postgrest.gte_op
              (Postgrest.Num (JS.parseFloat (minPrice s)))] else [])
  ++ (if non_empty (maxPrice s)
      then [Postgrest.mkFilter "price" Postgrest.lte_op
              (Postgrest.Num (JS.parseFloat (maxPrice s)))] else [])
  ++ (if inStockOnly s
      then [Postgrest.mkFilter "stock_quantity" Postgrest.gt_op
              (Postgrest.Num JS.zero)] else []).

(** Rules 6 to 8: single-key ordering, the window, the exact count. *)
Definition reference_request (s : QueryState) : Postgrest.Request :=
  {| Postgrest.table := "products";
     Postgrest.columns := "*";
     Postgrest.count_mode := Some Postgrest.exact;
     Postgrest.filters := predicates s;
     Postgrest.ordering :=
       [(sortField s, match sortDirection s with asc => true | desc => false end)];
     Postgrest.offset := Some ((page s - 1) * pageSize);
     Postgrest.limit := Some pageSize |}.

(** The distinct-category request of section 4.4. *)
Definition categories_request : Postgrest.Request :=
  {| Postgrest.table := "products";
     Postgrest.columns := "category";
     Postgrest.count_mode := None;
     Postgrest.filters := [];
     Postgrest.ordering := [("category", true)];
     Postgrest.offset := None;
     Postgrest.limit := None |}.

Definition operator_eqb (a b : Postgrest.operator) : bool :=
  match a, b with
  | Postgrest.ilike_op, Postgrest.ilike_op
  | Postgrest.eq_op, Postgrest.eq_op
  | Postgrest.gte_op, Postgrest.gte_op
  | Postgrest.lte_op, Postgrest.lte_op
  | Postgrest.gt_op, Postgrest.gt_op => true
  | _, _ => false
  end.

(** The predicates of a request on column [col] with operator [o]. *)
Definition predicates_on (col : string) (o : Postgrest.operator)
    (q : Postgrest.Request) : list Postgrest.Filter :=
  filter (fun f => (Postgrest.column f =? col)%string
                   && operator_eqb (Postgrest.op f) o)
         (Postgrest.filters q).

(** The store's side of the window contract: a response to a request with
    a limit carries at most that many rows. *)
Definition honours_window {Row : Type}
    (remote : nat -> Postgrest.Request -> Postgrest.Response Row) : Prop :=
  forall n q lim rows,
    Postgrest.limit q = Some lim ->
    Postgrest.data (remote n q) = Some rows ->
    Z.of_nat (length rows) <= Z.max 0 lim.

End Spec.

(** The query state a render of each component hands to its fetch. *)
Definition InventoryPage_queryState (r : InventoryPage.Store) : Spec.QueryState :=
  {| Spec.search := InventoryPage.debouncedSearch r;
     Spec.category := InventoryPage.category r;
     Spec.minPrice := InventoryPage.debouncedMinPrice r;
     Spec.maxPrice := InventoryPage.debouncedMaxPrice r;
     Spec.inStockOnly := InventoryPage.inStockOnly r;
     Spec.sortField := InventoryPage.sortBy r;
     Spec.sortDirection := InventoryPage.sortOrder r;
     Spec.page := InventoryPage.page r |}.

Definition LegacyApp_queryState (r : LegacyApp.Store) : Spec.QueryState :=
  {| Spec.search := LegacyApp.search r;
     Spec.category := LegacyApp.category r;
     Spec.minPrice := LegacyApp.minPrice r;
     Spec.maxPrice := LegacyApp.maxPrice r;
     Spec.inStockOnly := LegacyApp.inStockOnly r;
     Spec.sortField := LegacyApp.sortBy r;
     Spec.sortDirection := LegacyApp.sortOrder r;
     Spec.page := LegacyApp.page r |}.

(* ------------------------------------------------------------------ *)
(** ** An in-memory remote store *)
(* ------------------------------------------------------------------ *)

Module MemoryStore.

Section Table.

Context {Row : Type}.
(** Evaluation of the conjoined predicates on a row, and the ordering of
    rows, are the store's own business. *)
Variable satisfies : list Postgrest.Filter -> Row -> bool.
Variable sorted : list (string * bool) -> list Row -> list Row.
Variable rows : list Row.

Definition window (off lim : option Z) (l : list Row) : list Row :=
  let l := match off with Some o => skipn (Z.to_nat o) l | None => l end in
  match lim with Some n => firstn (Z.to_nat n) l | None => l end.

(** Matching rows are ordered, counted, then cut to the window; a negative
    offset is a query failure. *)
Definition run (_ : nat) (q : Postgrest.Request) : Postgrest.Response Row :=
  let matching :=
    sorted (Postgrest.ordering q) (filter (satisfies (Postgrest.filters q)) rows) in
  match Postgrest.offset q with
  | Some o =>
      if o <? 0 then
        Postgrest.mkResponse None None
          (Some (Postgrest.mkError "OFFSET must not be negative"))
      else
        Postgrest.mkResponse
          (Some (window (Postgrest.offset q) (Postgrest.limit q) matching))
          (match Postgrest.count_mode q with
           | Some Postgrest.exact => Some (Z.of_nat (length matching))
           | None => None
           end)
          None
  | None =>
      Postgrest.mkResponse
        (Some (window None (Postgrest.limit q) matching))
        (match Postgrest.count_mode q with
         | Some Postgrest.exact => Some (Z.of_nat (length matching))
         | None => None
         end)
        None
  end.

End Table.

(** A store that is unreachable. *)
Definition unreachable {Row : Type} (_ : nat) (_ : Postgrest.Request)
  : Postgrest.Response Row :=
  Postgrest.mkResponse None None (Some (Postgrest.mkError "Failed to fetch")).

End MemoryStore.


(* ------------------------------------------------------------------ *)
(** ** Derived notions used in the statements *)
(* ------------------------------------------------------------------ *)

Definition failure_message : string :=
  "Failed to load products. Please check your connection and try again.".

(** The store of the inventory page after one run of [fetchProducts], given
    the response of the round trip. *)
Definition InventoryPage_settle (resp : Postgrest.Response Product)
    (s : InventoryPage.Store) : InventoryPage.Store :=
  InventoryPage.with_loading false
    (match Postgrest.error resp with
     | Some _ =>
         InventoryPage.with_error (Some failure_message)
           (InventoryPage.with_error None (InventoryPage.with_loading true s))
     | None =>
         InventoryPage.with_totalCount (JS.or_int (Postgrest.count resp) 0)
           (InventoryPage.with_products (JS.or_array (Postgrest.data resp) [])
              (InventoryPage.with_error None (InventoryPage.with_loading true s)))
     end).

Definition LegacyApp_settle (resp : Postgrest.Response Product)
    (s : LegacyApp.Store) : LegacyApp.Store :=
  LegacyApp.with_loading false
    (match Postgrest.error resp with
     | Some _ =>
         LegacyApp.with_error (Some failure_message)
           (LegacyApp.with_error None (LegacyApp.with_loading true s))
     | None =>
         LegacyApp.with_totalCount (JS.or_int (Postgrest.count resp) 0)
           (LegacyApp.with_products (JS.or_array (Postgrest.data resp) [])
              (LegacyApp.with_error None (LegacyApp.with_loading true s)))
     end).

(* ------------------------------------------------------------------ *)
(** ** Scenarios *)
(* ------------------------------------------------------------------ *)

Module Scenario.

(** Twenty-three lamps, priced 10.01 to 10.23. *)
Definition lamp (n : nat) : Product :=
  {| id := "lamp-" ++ show_int (Z.of_nat n);
     name := "Desk Lamp";
     category := "Home & Garden";
     price := JS.Decimal false (N.of_nat (1000 + n)) (-2);
     stock_quantity := Z.of_nat n;
     created_at := "2024-01-01T00:00:00Z" |}.

Definition lamps : list Product := map lamp (seq 1 23).

(** A store whose every row satisfies the predicates sent to it and that
    keeps its rows in ascending order already. *)
Definition lamp_store : nat -> Postgrest.Request -> Postgrest.Response Product :=
  MemoryStore.run (fun _ _ => true) (fun _ l => l) lamps.

Definition empty_store : nat -> Postgrest.Request -> Postgrest.Response Product :=
  MemoryStore.run (fun _ _ => true) (fun _ l => l) [].

(** A store that answers with neither rows nor count nor error. *)
Definition null_store : nat -> Postgrest.Request -> Postgrest.Response Product :=
  fun _ _ => Postgrest.mkResponse None None None.

Definition category_rows : list CategoryRow :=
  map mkCategoryRow
    ["Books"; "Books"; "Electronics"; "Home & Garden"; "Home & Garden"; "Sports"].

Definition category_store : nat -> Postgrest.Request -> Postgrest.Response CategoryRow :=
  MemoryStore.run (fun _ _ => true) (fun _ l => l) category_rows.

(** Ascending order of texts, character by character. *)
Definition ascending (a b : string) : Prop := String.leb a b = true.

Definition world (s : InventoryPage.Store) : InventoryPage.World :=
  {| InventoryPage.store := s; InventoryPage.sent := []; InventoryPage.console := [] |}.

Definition legacy_world (s : LegacyApp.Store) : LegacyApp.World :=
  {| LegacyApp.store := s; LegacyApp.sent := []; LegacyApp.console := [] |}.

(** The page after its mount at time 0 against the lamp store. *)
Definition mounted : InventoryPage.Store :=
  InventoryPage.rerender 100
    (InventoryPage.store
       (execState
          (InventoryPage.mount_effects lamp_store category_store (InventoryPage.initial 0))
          (world (InventoryPage.initial 0)))).

(** The user pages forward twice: page 3 of 3. *)
Definition on_page_3 : InventoryPage.Store :=
  let s := InventoryPage.handle (InventoryPage.pagination_clickNext mounted) mounted in
  InventoryPage.handle (InventoryPage.pagination_clickNext s) s.

(** The user types "lamp" at time 1000, the quiet period passes, then they
    click the Price header once. *)
Definition lamp_by_price : InventoryPage.Store :=
  let s :=
    InventoryPage.rerender 1000
      (InventoryPage.handle (InventoryPage.filterPanel_onChangeSearch "lamp") mounted) in
  let s := InventoryPage.rerender 1400 s in
  InventoryPage.rerender 1500
    (InventoryPage.handle (InventoryPage.productTable_handleSort s "price") s).

(** Page 4 of a search for "x", sorted by price descending. *)
Definition searched_x_page_4 : InventoryPage.Store :=
  InventoryPage.with_page 4
    (InventoryPage.with_search "x"
       (InventoryPage.with_sortBy "price"
          (InventoryPage.with_sortOrder desc (InventoryPage.initial 0)))).

Definition legacy_searched_x_page_4 : LegacyApp.Store :=
  LegacyApp.with_page 4
    (LegacyApp.with_search "x"
       (LegacyApp.with_sortBy "price"
          (LegacyApp.with_sortOrder desc LegacyApp.initial))).

(** The page after its mount against the empty store. *)
Definition mounted_empty : InventoryPage.Store :=
  InventoryPage.rerender 100
    (InventoryPage.store
       (execState
          (InventoryPage.mount_effects empty_store category_store (InventoryPage.initial 0))
          (world (InventoryPage.initial 0)))).

(** The monolithic page sorted by stock: the Stock header clicked once. *)
Definition legacy_sorted_by_stock : LegacyApp.Store :=
  LegacyApp.handle (LegacyApp.onClickHeader LegacyApp.initial "Stock") LegacyApp.initial.

(** The monolithic page with "lamp" typed and the Price header clicked. *)
Definition legacy_lamp_by_price : LegacyApp.Store :=
  let s := LegacyApp.handle (LegacyApp.onChangeSearch "lamp") LegacyApp.initial in
  LegacyApp.handle (LegacyApp.onClickHeader s "Price") s.

(** Four keystrokes, 100 to 150 ms apart, after a mount at time 0. *)
Definition typing_lamp : list (Z * string) :=
  [(1100, "la"); (1250, "lam"); (1300, "lamp")].

End Scenario.

(* ------------------------------------------------------------------ *)
(** ** What the page shows *)
(* ------------------------------------------------------------------ *)

Module View.

(** The three states of the table body of [ProductTable]. *)
Inductive Body : Type :=
| LoadingRow                    (* "Loading products..." *)
| EmptyRow                      (* "No products found." *)
| Rows (rows : list Product).

Definition tableBody (loading : bool) (products : list Product) : Body :=
  if loading then LoadingRow
  else if (length products =? 0)%nat then EmptyRow
  else Rows products.

(** The text of the stock badge of one row. *)
Definition stockBadge (p : Product) : string :=
  if 0 <? stock_quantity p then show_int (stock_quantity p) ++ " in stock"
  else "Out of stock".

(** [{error && <ErrorBanner error={error} onRetry={fetchProducts} />}]: the
    message the banner shows, when it is rendered. *)
Definition errorBanner (error : option string) : option string :=
  match error with
  | Some e => if JS.truthy e then Some e else None
  | None => None
  end.

Definition inventoryBody (s : InventoryPage.Store) : Body :=
  tableBody (InventoryPage.loading s) (InventoryPage.products s).

Definition inventoryBanner (s : InventoryPage.Store) : option string :=
  errorBanner (InventoryPage.error s).

End View.

(* ------------------------------------------------------------------ *)
(** ** Sessions: the controls of the page and what they are wired to *)
(* ------------------------------------------------------------------ *)

Module Session.

(** One thing that happens to a mounted inventory page: an input event on a
    control of the filter panel, a click on the [n]-th column header or on a
    pagination button, a re-render at some time, or a fetch created by the
    current render running to completion against some store. *)
Inductive Event : Type :=
| TypeSearch (v : string)
| SelectCategory (v : string)
| TypeMinPrice (v : string)
| TypeMaxPrice (v : string)
| CheckInStock (checked : bool)
| ClickClear
| ClickHeader (n : nat)
| ClickPrev
| ClickNext
| Rerender (now : Z)
| RunFetchProducts (remote : nat -> Postgrest.Request -> Postgrest.Response Product)
| RunFetchCategories
    (remote : nat -> Postgrest.Request -> Postgrest.Response CategoryRow).

Definition world (s : InventoryPage.Store) : InventoryPage.World :=
  {| InventoryPage.store := s; InventoryPage.sent := []; InventoryPage.console := [] |}.

Definition step (s : InventoryPage.Store) (e : Event) : InventoryPage.Store :=
  match e with
  | TypeSearch v => InventoryPage.handle (InventoryPage.filterPanel_onChangeSearch v) s
  | SelectCategory v => InventoryPage.handle (InventoryPage.filterPanel_onChangeCategory v) s
  | TypeMinPrice v => InventoryPage.handle (InventoryPage.filterPanel_onChangeMinPrice v) s
  | TypeMaxPrice v => InventoryPage.handle (InventoryPage.filterPanel_onChangeMaxPrice v) s
  | CheckInStock b => InventoryPage.handle (InventoryPage.filterPanel_onChangeInStockOnly b) s
  | ClickClear => InventoryPage.handle InventoryPage.filterPanel_onClickClear s
  | ClickHeader n =>
      match nth_error ProductTable.COLUMNS n with
      | Some (_, colKey) =>
          InventoryPage.handle (InventoryPage.productTable_handleSort s colKey) s
      | None => s
      end
  | ClickPrev => InventoryPage.handle (InventoryPage.pagination_clickPrev s) s
  | ClickNext => InventoryPage.handle (InventoryPage.pagination_clickNext s) s
  | Rerender now => InventoryPage.rerender now s
  | RunFetchProducts remote =>
      InventoryPage.store (execState (InventoryPage.fetchProducts remote s) (world s))
  | RunFetchCategories remote =>
      InventoryPage.store (execState (InventoryPage.fetchCategories remote) (world s))
  end.

Definition run (events : list Event) (s : InventoryPage.Store) : InventoryPage.Store :=
  fold_left step events s.

(** The same for the monolithic page, whose headers are the five labels. *)
Inductive LegacyEvent : Type :=
| LTypeSearch (v : string)
| LSelectCategory (v : string)
| LTypeMinPrice (v : string)
| LTypeMaxPrice (v : string)
| LCheckInStock (checked : bool)
| LClickClear
| LClickHeader (n : nat)
| LClickPrev
| LClickNext
| LRunFetchProducts (remote : nat -> Postgrest.Request -> Postgrest.Response Product).

Definition legacy_world (s : LegacyApp.Store) : LegacyApp.World :=
  {| LegacyApp.store := s; LegacyApp.sent := []; LegacyApp.console := [] |}.

Definition legacy_step (s : LegacyApp.Store) (e : LegacyEvent) : LegacyApp.Store :=
  match e with
  | LTypeSearch v => LegacyApp.handle (LegacyApp.onChangeSearch v) s
  | LSelectCategory v => LegacyApp.handle (LegacyApp.onChangeCategory v) s
  | LTypeMinPrice v => LegacyApp.handle (LegacyApp.onChangeMinPrice v) s
  | LTypeMaxPrice v => LegacyApp.handle (LegacyApp.onChangeMaxPrice v) s
  | LCheckInStock b => LegacyApp.handle (LegacyApp.onChangeInStockOnly b) s
  | LClickClear => LegacyApp.handle LegacyApp.clearFilters s
  | LClickHeader n =>
      match nth_error LegacyApp.headers n with
      | Some header => LegacyApp.handle (LegacyApp.onClickHeader s header) s
      | None => s
      end
  | LClickPrev => LegacyApp.handle (LegacyApp.clickPrev s) s
  | LClickNext => LegacyApp.handle (LegacyApp.clickNext s) s
  | LRunFetchProducts remote =>
      LegacyApp.store (execState (LegacyApp.fetchProducts remote s) (legacy_world s))
  end.

Definition legacy_run (events : list LegacyEvent) (s : LegacyApp.Store) : LegacyApp.Store :=
  fold_left legacy_step events s.

(** The dependency list of the monolithic [fetchProducts] and the effect
    that re-runs it. *)
Definition legacy_same_deps (a b : LegacyApp.Store) : bool :=
  (LegacyApp.page a =? LegacyApp.page b)
  && (LegacyApp.search a =? LegacyApp.search b)%string
  && (LegacyApp.category a =? LegacyApp.category b)%string
  && (LegacyApp.minPrice a =? LegacyApp.minPrice b)%string
  && (LegacyApp.maxPrice a =? LegacyApp.maxPrice b)%string
  && Bool.eqb (LegacyApp.inStockOnly a) (LegacyApp.inStockOnly b)
  && (LegacyApp.sortBy a =? LegacyApp.sortBy b)%string
  && SortOrder_eqb (LegacyApp.sortOrder a) (LegacyApp.sortOrder b).

Definition legacy_update_effects
    (remote : nat -> Postgrest.Request -> Postgrest.Response Product)
    (prev r : LegacyApp.Store) : LegacyApp.M unit :=
  if legacy_same_deps prev r then ret tt else LegacyApp.fetchProducts remote r.

(** The columns of the [products] table (schema.sql) that a row carries. *)
Definition table_columns : list string :=
  ["id"; "name"; "category"; "price"; "stock_quantity"; "created_at"].

End Session.

(* ------------------------------------------------------------------ *)
(** ** States a debounce hook and the page's hooks can be in *)
(* ------------------------------------------------------------------ *)

(** The hooks a mounted component can hold at time [now]: mounted, then
    re-rendered or left to the event loop at later times. *)
Inductive Hook_reachable {T : Type} (T_eqb : T -> T -> bool)
  : Z -> UseDebounce.Hook T -> Prop :=
| reach_mount (now : Z) (v : T) (d : Z) :
    Hook_reachable T_eqb now (UseDebounce.mount now v d)
| reach_render (now t : Z) (v : T) (d : Z) (h : UseDebounce.Hook T) :
    Hook_reachable T_eqb now h -> now <= t ->
    Hook_reachable T_eqb t (UseDebounce.render T_eqb t v d h)
| reach_tick (now t : Z) (h : UseDebounce.Hook T) :
    Hook_reachable T_eqb now h -> now <= t ->
    Hook_reachable T_eqb t (UseDebounce.tick t h).

(** A pending timer carries the current input and is due within the delay;
    an idle hook returns its input. *)
Definition Hook_consistent {T : Type} (now : Z) (h : UseDebounce.Hook T) : Prop :=
  match UseDebounce.timer h with
  | Some (due, v) =>
      v = UseDebounce.value h /\ due <= now + UseDebounce.timeout_ms (UseDebounce.delay h)
  | None => UseDebounce.debouncedValue h = UseDebounce.value h
  end.

(** A hook of the inventory page at rest on the text [raw]: no timer
    pending, input and output both [raw], delay 400. *)
Definition hook_at_rest (raw : string) (h : UseDebounce.Hook string) : Prop :=
  UseDebounce.timer h = None
  /\ UseDebounce.value h = raw
  /\ UseDebounce.debouncedValue h = raw
  /\ UseDebounce.delay h = 400.

(** A render of the inventory page all of whose three hooks are at rest. *)
Definition at_rest (s : InventoryPage.Store) : Prop :=
  hook_at_rest (InventoryPage.search s) (InventoryPage.search_debounce s)
  /\ hook_at_rest (InventoryPage.minPrice s) (InventoryPage.minPrice_debounce s)
  /\ hook_at_rest (InventoryPage.maxPrice s) (InventoryPage.maxPrice_debounce s).

(** What a session keeps true of the store. *)
Definition session_ok (s : InventoryPage.Store) : Prop :=
  1 <= InventoryPage.page s
  /\ In (InventoryPage.sortBy s) (map snd ProductTable.COLUMNS).

Definition legacy_session_ok (s : LegacyApp.Store) : Prop :=
  1 <= LegacyApp.page s
  /\ In (LegacyApp.sortBy s) ["name"; "category"; "price"; "stock_quantity"; "created_at"].

(** A store at rest on its texts, for the runs below: the mounted page
    of the lamp scenario once the quiet period of the mount has passed, and
    the same on page 2. *)
Definition rested : InventoryPage.Store := InventoryPage.rerender 500 Scenario.mounted.

Definition rested_page_2 : InventoryPage.Store :=
  InventoryPage.rerender 600
    (InventoryPage.handle (InventoryPage.pagination_clickNext rested) rested).

(** A store that fails the first request of a session and answers the
    later ones from the lamp table. *)
Definition flaky_store (n : nat) (q : Postgrest.Request) : Postgrest.Response Product :=
  match n with
  | O => MemoryStore.unreachable n q
  | S _ => Scenario.lamp_store n q
  end.

(* ------------------------------------------------------------------ *)
(** ** The price boxes: [<input type="number">] *)
(* ------------------------------------------------------------------ *)

Module NumberInput.

(** The exponent of a valid floating-point number, read to the end of the
    text: [e] or [E], an optional sign, one or more digits. *)
Definition exponent_to_end (s : string) : bool :=
  match s with
  | EmptyString => true
  | String c r =>
      if (Ascii.eqb c "e" || Ascii.eqb c "E")%bool then
        let r' :=
          match r with
          | String "+" t => t
          | String "-" t => t
          | _ => r
          end in
        let '(_, n, rest) := JS.digits 0 0 r' in
        (0 <? n)%nat && (rest =? "")%string
      else false
  end.

(** A valid floating-point number: an optional [-]; digits, or a [.] with
    digits after it, or both in that order; an optional exponent. *)
Definition valid_floating_point_number (s : string) : bool :=
  let body := match s with String "-" r => r | _ => s end in
  let '(_, ilen, r) := JS.digits 0 0 body in
  match r with
  | String "." r1 =>
      let '(_, flen, r2) := JS.digits 0 0 r1 in
      (0 <? flen)%nat && exponent_to_end r2
  | _ => (0 <? ilen)%nat && exponent_to_end r
  end.

(** [e.target.value] of a number input that holds the text [typed]: the
    text itself when it is a valid floating-point number with a finite
    value, the empty text otherwise. *)
Definition value (typed : string) : string :=
  if valid_floating_point_number typed && JS.isFinite (JS.parseFloat typed)
  then typed else "".

End NumberInput.

Module PriceBox.



End PriceBox.

(* ================================================================== *)
(** * Properties *)
(* ================================================================== *)

Lemma truthy_non_empty (s : string) : JS.truthy s = Spec.non_empty s.
Proof. destruct s; reflexivity. Qed.

Lemma window_limit (a : Z) : a + 10 - 1 - a + 1 = 10.
Proof. lia. Qed.

Lemma InventoryPage_fetchProducts_exec remote (r : InventoryPage.Store) (w : InventoryPage.World) :
  let q := Spec.reference_request (InventoryPage_queryState r) in
  let resp := remote (length (InventoryPage.sent w)) q in
  execState (InventoryPage.fetchProducts remote r) w =
    {| InventoryPage.store := InventoryPage_settle resp (InventoryPage.store w);
       InventoryPage.sent := (InventoryPage.sent w ++ [q])%list;
       InventoryPage.console :=
         match Postgrest.error resp with
         | Some e =>
             (InventoryPage.console w ++ [("Supabase fetch error:", Postgrest.message e)])%list
         | None => InventoryPage.console w
         end |}.
Proof.
  cbv zeta.
  unfold InventoryPage.fetchProducts, Spec.reference_request, Spec.predicates, InventoryPage_settle.
  cbn [InventoryPage_queryState Spec.search Spec.category Spec.minPrice Spec.maxPrice
       Spec.inStockOnly Spec.sortField Spec.sortDirection Spec.page].
  rewrite <- !truthy_non_empty.
  destruct (JS.truthy (InventoryPage.debouncedSearch r)), (InventoryPage.category r =? "All")%string,
    (JS.truthy (InventoryPage.debouncedMinPrice r)), (JS.truthy (InventoryPage.debouncedMaxPrice r)),
    (InventoryPage.inStockOnly r), (InventoryPage.sortOrder r).
  all: cbv [Postgrest.range Postgrest.order Postgrest.gt Postgrest.lte
    Postgrest.gte Postgrest.eq Postgrest.ilike Postgrest.add_filter
    Postgrest.select Postgrest.from ITEMS_PER_PAGE  Spec.pageSize negb
    SortOrder_eqb app].
  all: rewrite window_limit.
  all: unfold execState; cbn.
  all: match goal with |- context [Postgrest.error ?x] => destruct (Postgrest.error x) end.
  all: reflexivity.
Qed.

Lemma LegacyApp_fetchProducts_exec remote (r : LegacyApp.Store) (w : LegacyApp.World) :
  let q := Spec.reference_request (LegacyApp_queryState r) in
  let resp := remote (length (LegacyApp.sent w)) q in
  execState (LegacyApp.fetchProducts remote r) w =
    {| LegacyApp.store := LegacyApp_settle resp (LegacyApp.store w);
       LegacyApp.sent := (LegacyApp.sent w ++ [q])%list;
       LegacyApp.console :=
         match Postgrest.error resp with
         | Some e =>
             (LegacyApp.console w ++ [("Supabase fetch error:", Postgrest.message e)])%list
         | None => LegacyApp.console w
         end |}.
Proof.
  cbv zeta.
  unfold LegacyApp.fetchProducts, Spec.reference_request, Spec.predicates, LegacyApp_settle.
  cbn [LegacyApp_queryState Spec.search Spec.category Spec.minPrice Spec.maxPrice
       Spec.inStockOnly Spec.sortField Spec.sortDirection Spec.page].
  rewrite <- !truthy_non_empty.
  destruct (JS.truthy (LegacyApp.search r)), (LegacyApp.category r =? "All")%string,
    (JS.truthy (LegacyApp.minPrice r)), (JS.truthy (LegacyApp.maxPrice r)),
    (LegacyApp.inStockOnly r), (LegacyApp.sortOrder r).
  all: cbv [Postgrest.range Postgrest.order Postgrest.gt Postgrest.lte
    Postgrest.gte Postgrest.eq Postgrest.ilike Postgrest.add_filter
    Postgrest.select Postgrest.from ITEMS_PER_PAGE LegacyApp.ITEMS_PER_PAGE Spec.pageSize negb
    SortOrder_eqb app].
  all: rewrite window_limit.
  all: unfold execState; cbn.
  all: match goal with |- context [Postgrest.error ?x] => destruct (Postgrest.error x) end.
  all: reflexivity.
Qed.

(** The window of the reference request. *)
Lemma reference_limit (s : Spec.QueryState) :
  Postgrest.limit (Spec.reference_request s) = Some 10.
Proof. reflexivity. Qed.

Lemma reference_offset (s : Spec.QueryState) :
  Postgrest.offset (Spec.reference_request s) = Some ((Spec.page s - 1) * 10).
Proof. reflexivity. Qed.

(** Which predicate the reference request carries on a column, rule by rule. *)
Lemma predicates_on_name (s : Spec.QueryState) :
  Spec.predicates_on "name" Postgrest.ilike_op (Spec.reference_request s) =
    if Spec.non_empty (Spec.search s)
    then [Postgrest.mkFilter "name" Postgrest.ilike_op
            (Postgrest.Text ("%" ++ Spec.search s ++ "%"))]
    else [].
Proof.
  unfold Spec.predicates_on, Spec.reference_request, Spec.predicates; cbn [Postgrest.filters].
  destruct (Spec.non_empty (Spec.search s)), (Spec.category s =? "All")%string,
    (Spec.non_empty (Spec.minPrice s)), (Spec.non_empty (Spec.maxPrice s)),
    (Spec.inStockOnly s); reflexivity.
Qed.

Lemma predicates_on_category (s : Spec.QueryState) :
  Spec.predicates_on "category" Postgrest.eq_op (Spec.reference_request s) =
    if (Spec.category s =? "All")%string then []
    else [Postgrest.mkFilter "category" Postgrest.eq_op
            (Postgrest.Text (Spec.category s))].
Proof.
  unfold Spec.predicates_on, Spec.reference_request, Spec.predicates; cbn [Postgrest.filters].
  destruct (Spec.non_empty (Spec.search s)), (Spec.category s =? "All")%string,
    (Spec.non_empty (Spec.minPrice s)), (Spec.non_empty (Spec.maxPrice s)),
    (Spec.inStockOnly s); reflexivity.
Qed.

Lemma predicates_on_price_gte (s : Spec.QueryState) :
  Spec.predicates_on "price" Postgrest.gte_op (Spec.reference_request s) =
    if Spec.non_empty (Spec.minPrice s)
    then [Postgrest.mkFilter "price" Postgrest.gte_op
            (Postgrest.Num (JS.parseFloat (Spec.minPrice s)))]
    else [].
Proof.
  unfold Spec.predicates_on, Spec.reference_request, Spec.predicates; cbn [Postgrest.filters].
  destruct (Spec.non_empty (Spec.search s)), (Spec.category s =? "All")%string,
    (Spec.non_empty (Spec.minPrice s)), (Spec.non_empty (Spec.maxPrice s)),
    (Spec.inStockOnly s); reflexivity.
Qed.

Lemma predicates_on_price_lte (s : Spec.QueryState) :
  Spec.predicates_on "price" Postgrest.lte_op (Spec.reference_request s) =
    if Spec.non_empty (Spec.maxPrice s)
    then [Postgrest.mkFilter "price" Postgrest.lte_op
            (Postgrest.Num (JS.parseFloat (Spec.maxPrice s)))]
    else [].
Proof.
  unfold Spec.predicates_on, Spec.reference_request, Spec.predicates; cbn [Postgrest.filters].
  destruct (Spec.non_empty (Spec.search s)), (Spec.category s =? "All")%string,
    (Spec.non_empty (Spec.minPrice s)), (Spec.non_empty (Spec.maxPrice s)),
    (Spec.inStockOnly s); reflexivity.
Qed.

Lemma predicates_on_stock (s : Spec.QueryState) :
  Spec.predicates_on "stock_quantity" Postgrest.gt_op (Spec.reference_request s) =
    if Spec.inStockOnly s
    then [Postgrest.mkFilter "stock_quantity" Postgrest.gt_op (Postgrest.Num JS.zero)]
    else [].
Proof.
  unfold Spec.predicates_on, Spec.reference_request, Spec.predicates; cbn [Postgrest.filters].
  destruct (Spec.non_empty (Spec.search s)), (Spec.category s =? "All")%string,
    (Spec.non_empty (Spec.minPrice s)), (Spec.non_empty (Spec.maxPrice s)),
    (Spec.inStockOnly s); reflexivity.
Qed.

(** The in-memory store keeps the window contract, whatever its predicate
    evaluation and ordering are. *)
Lemma MemoryStore_honours_window {Row : Type} satisfies sorted (rows : list Row) :
  Spec.honours_window (MemoryStore.run satisfies sorted rows).
Proof.
  intros n q lim l Hlim Hdata.
  assert (Hw : forall off (m : list Row),
             Z.of_nat (length (MemoryStore.window off (Some lim) m)) <= Z.max 0 lim).
  { intros off m. unfold MemoryStore.window.
    rewrite length_firstn. lia. }
  unfold MemoryStore.run in Hdata. rewrite Hlim in Hdata.
  destruct (Postgrest.offset q) as [o|].
  - destruct (o <? 0); cbn in Hdata; [discriminate|].
    injection Hdata as <-. apply (Hw (Some o)).
  - cbn in Hdata. injection Hdata as <-. apply (Hw None).
Qed.

Lemma same_deps_queryState (a b : InventoryPage.Store) :
  InventoryPage.same_deps a b = true ->
  InventoryPage_queryState a = InventoryPage_queryState b.
Proof.
  unfold InventoryPage.same_deps, InventoryPage_queryState.
  rewrite !andb_true_iff.
  intros [[[[[[[Hp Hs] Hc] Hmin] Hmax] Hst] Hby] Hord].
  apply Z.eqb_eq in Hp. apply String.eqb_eq in Hs, Hc, Hmin, Hmax, Hby.
  apply Bool.eqb_prop in Hst.
  assert (Ho : InventoryPage.sortOrder a = InventoryPage.sortOrder b)
    by (destruct (InventoryPage.sortOrder a), (InventoryPage.sortOrder b);
        try reflexivity; discriminate).
  congruence.
Qed.

Lemma settle_keeps_queryState resp (s : InventoryPage.Store) :
  InventoryPage_queryState (InventoryPage_settle resp s) = InventoryPage_queryState s.
Proof.
  unfold InventoryPage_settle. destruct (Postgrest.error resp); reflexivity.
Qed.

(** C1. For every render of the inventory page and every state of the
    world, [fetchProducts] sends exactly one request, and that request is the
    reference request of the render's query state: the case-insensitive
    substring predicate on [name] is present iff the search text is non-empty,
    the equality on [category] iff the category is not "All", the two price
    bounds iff the respective text is set, [stock_quantity > 0] iff
    [inStockOnly]; these are all the (conjoined) predicates; the ordering has
    the single key [sortBy] in direction [sortOrder]; the window is offset
    [(page - 1) * 10], limit 10, with the exact count.  Against a store that
    honours the window the records returned by the round trip, which become
    [products], are at most 10. *)
Theorem fetchProducts_compiles_reference_request :
  forall (remote : nat -> Postgrest.Request -> Postgrest.Response Product)
         (r : InventoryPage.Store) (w : InventoryPage.World),
    Spec.honours_window remote ->
    let s := InventoryPage_queryState r in
    let w' := execState (InventoryPage.fetchProducts remote r) w in
    exists q : Postgrest.Request,
      InventoryPage.sent w' = (InventoryPage.sent w ++ [q])%list
      /\ q = Spec.reference_request s
      /\ Spec.predicates_on "name" Postgrest.ilike_op q =
           (if Spec.non_empty (Spec.search s)
            then [Postgrest.mkFilter "name" Postgrest.ilike_op
                    (Postgrest.Text ("%" ++ Spec.search s ++ "%"))]
            else [])
      /\ Spec.predicates_on "category" Postgrest.eq_op q =
           (if (Spec.category s =? "All")%string then []
            else [Postgrest.mkFilter "category" Postgrest.eq_op
                    (Postgrest.Text (Spec.category s))])
      /\ Spec.predicates_on "price" Postgrest.gte_op q =
           (if Spec.non_empty (Spec.minPrice s)
            then [Postgrest.mkFilter "price" Postgrest.gte_op
                    (Postgrest.Num (JS.parseFloat (Spec.minPrice s)))]
            else [])
      /\ Spec.predicates_on "price" Postgrest.lte_op q =
           (if Spec.non_empty (Spec.maxPrice s)
            then [Postgrest.mkFilter "price" Postgrest.lte_op
                    (Postgrest.Num (JS.parseFloat (Spec.maxPrice s)))]
            else [])
      /\ Spec.predicates_on "stock_quantity" Postgrest.gt_op q =
           (if Spec.inStockOnly s
            then [Postgrest.mkFilter "stock_quantity" Postgrest.gt_op
                    (Postgrest.Num JS.zero)]
            else [])
      /\ Postgrest.filters q =
           (Spec.predicates_on "name" Postgrest.ilike_op q
            ++ Spec.predicates_on "category" Postgrest.eq_op q
            ++ Spec.predicates_on "price" Postgrest.gte_op q
            ++ Spec.predicates_on "price" Postgrest.lte_op q
            ++ Spec.predicates_on "stock_quantity" Postgrest.gt_op q)%list
      /\ Postgrest.ordering q =
           [(Spec.sortField s,
             match Spec.sortDirection s with asc => true | desc => false end)]
      /\ Postgrest.offset q = Some ((Spec.page s - 1) * 10)
      /\ Postgrest.limit q = Some 10
      /\ Postgrest.count_mode q = Some Postgrest.exact
      /\ Postgrest.table q = "products"
      /\ match Postgrest.error (remote (length (InventoryPage.sent w)) q) with
         | None =>
             InventoryPage.products (InventoryPage.store w') =
               JS.or_array (Postgrest.data (remote (length (InventoryPage.sent w)) q)) []
             /\ Z.of_nat (length (InventoryPage.products (InventoryPage.store w'))) <= 10
         | Some _ =>
             InventoryPage.products (InventoryPage.store w') =
               InventoryPage.products (InventoryPage.store w)
         end.
Proof.
  intros remote r w Hwin s w'.
  exists (Spec.reference_request s).
  subst w'. rewrite InventoryPage_fetchProducts_exec. fold s.
  rewrite !predicates_on_name, !predicates_on_category, !predicates_on_price_gte,
    !predicates_on_price_lte, !predicates_on_stock.
  repeat match goal with |- _ /\ _ => split end; try reflexivity.
  cbn [InventoryPage.store InventoryPage.sent].
  unfold InventoryPage_settle.
  set (resp := remote _ _).
  destruct (Postgrest.error resp) eqn:He; cbn.
  - reflexivity.
  - split; [reflexivity|].
    destruct (Postgrest.data resp) as [rows|] eqn:Hd; cbn; [|lia].
    specialize (Hwin _ _ 10 rows (reference_limit s) Hd). lia.
Qed.

(** C6. Every run of [fetchProducts], whichever render created it and
    whatever the store holds: when the round trip fails, [error] is exactly
    the fixed message and [products] and [totalCount] are what they were;
    when it succeeds, a [null] row list decodes to the empty list and a
    [null] count to 0.  The run leaves the query state of the store alone,
    and a retry, the callback of a render with the same dependencies, sends
    the same request as the first run. *)
Theorem fetchProducts_failure_decoding_retry :
  forall (remote : nat -> Postgrest.Request -> Postgrest.Response Product)
         (r : InventoryPage.Store) (w : InventoryPage.World),
    let q := Spec.reference_request (InventoryPage_queryState r) in
    let resp := remote (length (InventoryPage.sent w)) q in
    let w' := execState (InventoryPage.fetchProducts remote r) w in
    let before := InventoryPage.store w in
    let after := InventoryPage.store w' in
    match Postgrest.error resp with
    | Some _ =>
        InventoryPage.error after =
          Some "Failed to load products. Please check your connection and try again."
        /\ InventoryPage.products after = InventoryPage.products before
        /\ InventoryPage.totalCount after = InventoryPage.totalCount before
    | None =>
        InventoryPage.error after = None
        /\ InventoryPage.products after =
             match Postgrest.data resp with Some rows => rows | None => [] end
        /\ InventoryPage.totalCount after =
             match Postgrest.count resp with Some n => n | None => 0 end
    end
    /\ InventoryPage_queryState after = InventoryPage_queryState before
    /\ InventoryPage.same_deps before after = true
    /\ InventoryPage.sent w' = (InventoryPage.sent w ++ [q])%list
    /\ forall r2 : InventoryPage.Store,
         InventoryPage.same_deps r r2 = true ->
         InventoryPage.sent (execState (InventoryPage.fetchProducts remote r2) w') =
           (InventoryPage.sent w ++ [q; q])%list.
Proof.
  intros remote r w q resp w' before after.
  assert (Hw' : w' = execState (InventoryPage.fetchProducts remote r) w) by reflexivity.
  rewrite InventoryPage_fetchProducts_exec in Hw'. fold q resp in Hw'.
  assert (Ha : after = InventoryPage_settle resp before)
    by (subst after; rewrite Hw'; reflexivity).
  repeat match goal with |- _ /\ _ => split end.
  - rewrite Ha. unfold InventoryPage_settle.
    destruct (Postgrest.error resp); cbn.
    + repeat split.
    + repeat split.
      destruct (Postgrest.count resp) as [n|]; cbn; [|reflexivity].
      destruct (Z.eqb_spec n 0); congruence.
  - rewrite Ha. apply settle_keeps_queryState.
  - rewrite Ha. unfold InventoryPage_settle, InventoryPage.same_deps.
    destruct (Postgrest.error resp); cbn;
      rewrite Z.eqb_refl, !String.eqb_refl, Bool.eqb_reflx;
      destruct (InventoryPage.sortOrder before); reflexivity.
  - rewrite Hw'. reflexivity.
  - intros r2 Hsame. rewrite InventoryPage_fetchProducts_exec.
    cbn [InventoryPage.sent].
    rewrite <- (same_deps_queryState r r2 Hsame). fold q.
    rewrite Hw'. cbn [InventoryPage.sent]. rewrite <- app_assoc. reflexivity.
Qed.

(** C10. Whenever the eight fields of a render of the monolithic [App]
    equal the values the inventory page hands to its fetch (the debounced
    search and price texts, and the category, stock flag, sort column, sort
    order and page), the two [fetchProducts] send one and the same request:
    same predicates, ordering, window and count mode. *)
Theorem fetchProducts_implementations_agree :
  forall (remoteA remoteI : nat -> Postgrest.Request -> Postgrest.Response Product)
         (a : LegacyApp.Store) (i : InventoryPage.Store)
         (wa : LegacyApp.World) (wi : InventoryPage.World),
    LegacyApp.search a = InventoryPage.debouncedSearch i ->
    LegacyApp.category a = InventoryPage.category i ->
    LegacyApp.minPrice a = InventoryPage.debouncedMinPrice i ->
    LegacyApp.maxPrice a = InventoryPage.debouncedMaxPrice i ->
    LegacyApp.inStockOnly a = InventoryPage.inStockOnly i ->
    LegacyApp.sortBy a = InventoryPage.sortBy i ->
    LegacyApp.sortOrder a = InventoryPage.sortOrder i ->
    LegacyApp.page a = InventoryPage.page i ->
    exists q : Postgrest.Request,
      LegacyApp.sent (execState (LegacyApp.fetchProducts remoteA a) wa) =
        (LegacyApp.sent wa ++ [q])%list
      /\ InventoryPage.sent (execState (InventoryPage.fetchProducts remoteI i) wi) =
           (InventoryPage.sent wi ++ [q])%list.
Proof.
  intros remoteA remoteI a i wa wi Hs Hc Hmin Hmax Hst Hby Hord Hp.
  exists (Spec.reference_request (InventoryPage_queryState i)).
  rewrite LegacyApp_fetchProducts_exec, InventoryPage_fetchProducts_exec.
  cbn [LegacyApp.sent InventoryPage.sent].
  replace (LegacyApp_queryState a) with (InventoryPage_queryState i); [split; reflexivity|].
  unfold LegacyApp_queryState, InventoryPage_queryState. congruence.
Qed.

(** The fetch as a function of the texts it is handed: the request carries
    the lower (upper) price bound exactly when the debounced [minPrice]
    ([maxPrice]) text is non-empty, with [parseFloat] of the text as operand,
    and [error] is set only when the round trip itself fails. *)
Lemma price_bound_present_for_every_non_empty_text :
  forall (remote : nat -> Postgrest.Request -> Postgrest.Response Product)
         (r : InventoryPage.Store) (w : InventoryPage.World),
    let w' := execState (InventoryPage.fetchProducts remote r) w in
    exists q : Postgrest.Request,
      InventoryPage.sent w' = (InventoryPage.sent w ++ [q])%list
      /\ Spec.predicates_on "price" Postgrest.gte_op q =
           (if JS.truthy (InventoryPage.debouncedMinPrice r)
            then [Postgrest.mkFilter "price" Postgrest.gte_op
                    (Postgrest.Num (JS.parseFloat (InventoryPage.debouncedMinPrice r)))]
            else [])
      /\ Spec.predicates_on "price" Postgrest.lte_op q =
           (if JS.truthy (InventoryPage.debouncedMaxPrice r)
            then [Postgrest.mkFilter "price" Postgrest.lte_op
                    (Postgrest.Num (JS.parseFloat (InventoryPage.debouncedMaxPrice r)))]
            else [])
      /\ InventoryPage.error (InventoryPage.store w') =
           match Postgrest.error (remote (length (InventoryPage.sent w)) q) with
           | Some _ => Some failure_message
           | None => None
           end
      /\ InventoryPage.console w' =
           match Postgrest.error (remote (length (InventoryPage.sent w)) q) with
           | Some e =>
               (InventoryPage.console w ++ [("Supabase fetch error:", Postgrest.message e)])%list
           | None => InventoryPage.console w
           end.
Proof.
  intros remote r w w'.
  exists (Spec.reference_request (InventoryPage_queryState r)).
  subst w'. rewrite InventoryPage_fetchProducts_exec.
  rewrite predicates_on_price_gte, predicates_on_price_lte, !truthy_non_empty.
  cbn [InventoryPage.sent InventoryPage.store InventoryPage.console].
  unfold InventoryPage_settle.
  repeat match goal with |- _ /\ _ => split end; try reflexivity.
  destruct (Postgrest.error _); reflexivity.
Qed.

(* ------------------------------------------------------------------ *)
(** ** The debounce hook *)
(* ------------------------------------------------------------------ *)

(** The 32-bit conversion leaves the delays a page uses as they are. *)
Lemma timeout_ms_small (d : Z) : 0 <= d < 2147483648 -> UseDebounce.timeout_ms d = d.
Proof.
  intros Hd. unfold UseDebounce.timeout_ms, UseDebounce.ToInt32.
  rewrite Z.mod_small by lia. lia.
Qed.

Lemma timeout_ms_nonneg (d : Z) : 0 <= UseDebounce.timeout_ms d.
Proof. unfold UseDebounce.timeout_ms. lia. Qed.

Lemma timeout_ms_ge (d : Z) : d < 2147483648 -> d <= UseDebounce.timeout_ms d.
Proof.
  intros Hd. destruct (Z.lt_ge_cases d 0) as [Hn|Hp].
  - pose proof (timeout_ms_nonneg d). lia.
  - rewrite timeout_ms_small by lia. lia.
Qed.

Section DebounceFacts.

Context {T : Type}.
Variable T_eqb : T -> T -> bool.


Lemma render_change_armed (t0 t : Z) (v : T) (h : UseDebounce.Hook T) :
  UseDebounce.delay h < 2147483648 ->
  UseDebounce.armed t0 h ->
  t0 <= t -> t - t0 < UseDebounce.delay h ->
  T_eqb v (UseDebounce.value h) = false ->
  let h' := UseDebounce.render T_eqb t v (UseDebounce.delay h) h in
  UseDebounce.armed t h'
  /\ UseDebounce.value h' = v
  /\ UseDebounce.delay h' = UseDebounce.delay h
  /\ UseDebounce.debouncedValue h' = UseDebounce.debouncedValue h
  /\ UseDebounce.propagated h' = UseDebounce.propagated h.
Proof.
  intros Hsmall Harm Hle Hlt Hneq.
  assert (Htick : UseDebounce.tick t h = h).
  { unfold UseDebounce.tick. rewrite Harm.
    rewrite (timeout_ms_small (UseDebounce.delay h)) by lia.
    destruct (Z.leb_spec (t0 + UseDebounce.delay h) t); [lia|reflexivity]. }
  unfold UseDebounce.render. rewrite Htick. cbv zeta.
  rewrite Hneq. cbn. unfold UseDebounce.armed. cbn. repeat split.
Qed.

Lemma changes_burst_armed (l : list (Z * T)) :
  forall (t0 : Z) (h : UseDebounce.Hook T),
    UseDebounce.delay h < 2147483648 ->
    UseDebounce.armed t0 h ->
    UseDebounce.burst T_eqb (UseDebounce.delay h) t0 (UseDebounce.value h) l ->
    let h' := UseDebounce.changes T_eqb l h in
    let e := last l (t0, UseDebounce.value h) in
    UseDebounce.armed (fst e) h'
    /\ UseDebounce.value h' = snd e
    /\ UseDebounce.delay h' = UseDebounce.delay h
    /\ UseDebounce.debouncedValue h' = UseDebounce.debouncedValue h
    /\ UseDebounce.propagated h' = UseDebounce.propagated h.
Proof.
  induction l as [|[t v] l IH]; intros t0 h Hsmall Harm Hb.
  - cbn. repeat split. exact Harm.
  - cbn [UseDebounce.burst] in Hb. destruct Hb as (Hle & Hlt & Hneq & Hb).
    destruct (render_change_armed t0 t v h Hsmall Harm Hle Hlt Hneq)
      as (Harm' & Hv & Hd & Hdv & Hp).
    set (h1 := UseDebounce.render T_eqb t v (UseDebounce.delay h) h) in *.
    specialize (IH t h1).
    rewrite Hd, Hv in IH. specialize (IH Hsmall Harm' Hb).
    unfold UseDebounce.changes in *. cbn [fold_left fst snd]. fold h1.
    destruct IH as (A & B & C & D & E).
    assert (Hlast : last ((t, v) :: l) (t0, UseDebounce.value h) = last l (t, v)).
    { clear. revert t v. induction l as [|x l IHl]; intros t v; [reflexivity|].
      cbn [last]. destruct l; [reflexivity|]. apply IHl. }
    cbv zeta. rewrite Hlast.
    repeat split; try assumption; congruence.
Qed.

End DebounceFacts.

(** C8. A burst of input changes, each less than the quiet period after
    the previous one, whatever state the hook was in when the burst began,
    for a quiet period below 2^31 ms (the range of a timer's delay; 400 by
    default): from the first change on, the hook propagates nothing before
    the quiet period after the last change has run out, then exactly the
    final value, once; before that, its output stays what it was when the
    burst began. *)
Theorem useDebounce_burst_propagates_final_value_only :
  forall (T : Type) (T_eqb : T -> T -> bool) (h : UseDebounce.Hook T)
         (t1 : Z) (v1 : T) (rest : list (Z * T)) (horizon : Z),
    UseDebounce.delay h < 2147483648 ->
    T_eqb v1 (UseDebounce.value h) = false ->
    UseDebounce.burst T_eqb (UseDebounce.delay h) t1 v1 rest ->
    let before := UseDebounce.tick t1 h in
    let tN := fst (last rest (t1, v1)) in
    let vN := snd (last rest (t1, v1)) in
    let due := tN + UseDebounce.timeout_ms (UseDebounce.delay h) in
    let h' := UseDebounce.tick horizon (UseDebounce.changes T_eqb ((t1, v1) :: rest) h) in
    tN + UseDebounce.delay h <= due
    /\ UseDebounce.propagated h' =
         (UseDebounce.propagated before ++ (if due <=? horizon then [(due, vN)] else []))%list
    /\ UseDebounce.useDebounce h' =
         (if due <=? horizon then vN else UseDebounce.useDebounce before).
Proof.
  intros T T_eqb h t1 v1 rest horizon Hsmall Hneq Hb before tN vN due h'.
  split; [subst due; pose proof (timeout_ms_ge _ Hsmall); lia|].
  (* the first change re-arms the timer *)
  set (h1 := UseDebounce.render T_eqb t1 v1 (UseDebounce.delay h) h).
  assert (Hfirst : UseDebounce.armed t1 h1 /\ UseDebounce.value h1 = v1
                   /\ UseDebounce.delay h1 = UseDebounce.delay h
                   /\ UseDebounce.debouncedValue h1 = UseDebounce.debouncedValue before
                   /\ UseDebounce.propagated h1 = UseDebounce.propagated before).
  { subst h1 before. unfold UseDebounce.render.
    assert (Hv : UseDebounce.value (UseDebounce.tick t1 h) = UseDebounce.value h).
    { unfold UseDebounce.tick. destruct (UseDebounce.timer h) as [[d v]|]; [|reflexivity].
      destruct (d <=? t1); reflexivity. }
    assert (Hd : UseDebounce.delay (UseDebounce.tick t1 h) = UseDebounce.delay h).
    { unfold UseDebounce.tick. destruct (UseDebounce.timer h) as [[d v]|]; [|reflexivity].
      destruct (d <=? t1); reflexivity. }
    cbv zeta. rewrite Hv, Hneq. cbn. unfold UseDebounce.armed. cbn. repeat split. }
  destruct Hfirst as (Harm & Hv1 & Hd1 & Hdv1 & Hp1).
  pose proof (changes_burst_armed T_eqb rest t1 h1) as Hrest.
  rewrite Hd1, Hv1 in Hrest. specialize (Hrest Hsmall Harm Hb).
  cbv zeta in Hrest. destruct Hrest as (A & B & C & D & E).
  assert (Hh' : h' = UseDebounce.tick horizon (UseDebounce.changes T_eqb rest h1))
    by reflexivity.
  set (hN := UseDebounce.changes T_eqb rest h1) in *.
  assert (Htick : UseDebounce.tick horizon hN =
                  if due <=? horizon
                  then UseDebounce.mkHook (UseDebounce.value hN) (UseDebounce.delay hN) vN
                         None (UseDebounce.propagated hN ++ [(due, vN)])%list
                  else hN).
  { unfold UseDebounce.tick. unfold UseDebounce.armed in A. rewrite A, C, B. reflexivity. }
  rewrite Hh', Htick. unfold UseDebounce.useDebounce.
  destruct (due <=? horizon); cbn.
  - rewrite E, Hp1. split; reflexivity.
  - rewrite E, D, Hp1, Hdv1, app_nil_r. split; reflexivity.
Qed.

(* ------------------------------------------------------------------ *)
(** ** The category enumeration *)
(* ------------------------------------------------------------------ *)

Lemma existsb_eqb_In (x : string) (l : list string) :
  existsb (String.eqb x) l = true <-> In x l.
Proof.
  rewrite existsb_exists. split.
  - intros (y & Hy & He). apply String.eqb_eq in He. now subst.
  - intros H. exists x. split; [assumption | apply String.eqb_refl].
Qed.

Lemma Set_fold_In (xs : list string) :
  forall acc x,
    In x (fold_left InventoryPage.Set_add xs acc) <-> In x acc \/ In x xs.
Proof.
  induction xs as [|y xs IH]; intros acc x; cbn [fold_left].
  - cbn. tauto.
  - rewrite IH. unfold InventoryPage.Set_add.
    destruct (existsb (String.eqb y) acc) eqn:E.
    + apply existsb_eqb_In in E. cbn. intuition (subst; auto).
    + rewrite in_app_iff. cbn. tauto.
Qed.

Lemma Set_fold_NoDup (xs : list string) :
  forall acc, NoDup acc -> NoDup (fold_left InventoryPage.Set_add xs acc).
Proof.
  induction xs as [|y xs IH]; intros acc Hnd; cbn [fold_left]; [assumption|].
  apply IH. unfold InventoryPage.Set_add.
  destruct (existsb (String.eqb y) acc) eqn:E; [assumption|].
  assert (Hn : ~ In y acc).
  { intros Hin. apply existsb_eqb_In in Hin. congruence. }
  clear E. induction acc as [|a acc IHa]; cbn.
  - constructor; [intros []|constructor].
  - inversion Hnd as [|? ? Ha Hacc]; subst. constructor.
    + rewrite in_app_iff. cbn. intros [H|[H|[]]]; [tauto|].
      apply Hn. left. congruence.
    + apply IHa; [assumption|]. intros H. apply Hn. now right.
Qed.

Lemma StronglySorted_drop {A : Type} (R : A -> A -> Prop) (a : list A) :
  forall x b, StronglySorted R (a ++ x :: b) -> StronglySorted R (a ++ b).
Proof.
  induction a as [|y a IH]; intros x b H; cbn in *.
  - now inversion H.
  - inversion H as [|? ? Hs Hf]; subst. constructor.
    + eapply IH; eassumption.
    + rewrite Forall_app in *. destruct Hf as [Hf1 Hf2].
      split; [assumption | now inversion Hf2].
Qed.

Lemma Set_fold_sorted (R : string -> string -> Prop) (xs : list string) :
  forall acc,
    StronglySorted R (acc ++ xs) ->
    StronglySorted R (fold_left InventoryPage.Set_add xs acc).
Proof.
  induction xs as [|y xs IH]; intros acc H; cbn [fold_left].
  - now rewrite app_nil_r in H.
  - apply IH. unfold InventoryPage.Set_add.
    destruct (existsb (String.eqb y) acc).
    + eapply StronglySorted_drop; eassumption.
    + now rewrite <- app_assoc.
Qed.

Lemma fetchCategories_exec remote_c (w : InventoryPage.World) :
  let resp := remote_c (length (InventoryPage.sent w)) Spec.categories_request in
  execState (InventoryPage.fetchCategories remote_c) w =
    {| InventoryPage.store :=
         match Postgrest.data resp with
         | Some d =>
             InventoryPage.with_categories
               (InventoryPage.Set_spread (map row_category d)) (InventoryPage.store w)
         | None => InventoryPage.store w
         end;
       InventoryPage.sent := (InventoryPage.sent w ++ [Spec.categories_request])%list;
       InventoryPage.console := InventoryPage.console w |}.
Proof.
  cbv zeta. unfold InventoryPage.fetchCategories, execState. cbn.
  change (Postgrest.order "category" true
            (Postgrest.select "category" None (Postgrest.from "products")))
    with Spec.categories_request.
  destruct (Postgrest.data _); reflexivity.
Qed.

Lemma execState_seq {S A B : Type} (a : state S A) (b : state S B) (w : S) :
  execState (a ;; b) w = execState b (execState a w).
Proof.
  unfold execState. cbn. destruct (runState a w). reflexivity.
Qed.

(** C9. The category fetch sends the one unfiltered, unwindowed request
    for the [category] column ordered ascending.  From the rows that come
    back it keeps each category once: the result has no duplicates, holds
    exactly the categories of those rows, and is ascending (for any order
    relation in which the store returned the rows ascending).  When the run
    fails nothing changes: no error is set, nothing is logged, and a page
    that has no categories yet offers "All" alone.  The fetch belongs to the
    effects of the first render only: a mount sends it once, before the
    product fetch, and a later render sends at most the product fetch. *)
Theorem fetchCategories_distinct_ascending_silent :
  forall (remote_p : nat -> Postgrest.Request -> Postgrest.Response Product)
         (remote_c : nat -> Postgrest.Request -> Postgrest.Response CategoryRow)
         (w : InventoryPage.World) (prev r : InventoryPage.Store),
    let resp := remote_c (length (InventoryPage.sent w)) Spec.categories_request in
    let w' := execState (InventoryPage.fetchCategories remote_c) w in
    let cats := InventoryPage.categories (InventoryPage.store w') in
    InventoryPage.sent w' = (InventoryPage.sent w ++ [Spec.categories_request])%list
    /\ match Postgrest.data resp with
       | Some rows =>
           NoDup cats
           /\ (forall c, In c cats <-> In c (map row_category rows))
           /\ (forall R : string -> string -> Prop,
                 StronglySorted R (map row_category rows) -> StronglySorted R cats)
       | None =>
           InventoryPage.store w' = InventoryPage.store w
           /\ InventoryPage.console w' = InventoryPage.console w
           /\ (InventoryPage.categories (InventoryPage.store w) = [] ->
               InventoryPage.filterPanel_categoryOptions (InventoryPage.store w') = ["All"])
       end
    /\ InventoryPage.error (InventoryPage.store w') =
         InventoryPage.error (InventoryPage.store w)
    /\ InventoryPage.sent (execState (InventoryPage.mount_effects remote_p remote_c r) w) =
         (InventoryPage.sent w
          ++ [Spec.categories_request;
              Spec.reference_request (InventoryPage_queryState r)])%list
    /\ InventoryPage.sent (execState (InventoryPage.update_effects remote_p prev r) w) =
         (InventoryPage.sent w
          ++ (if InventoryPage.same_deps prev r then []
              else [Spec.reference_request (InventoryPage_queryState r)]))%list.
Proof.
  intros remote_p remote_c w prev r resp w' cats.
  assert (Hw' : w' = execState (InventoryPage.fetchCategories remote_c) w) by reflexivity.
  rewrite fetchCategories_exec in Hw'. fold resp in Hw'.
  repeat match goal with |- _ /\ _ => split end.
  - rewrite Hw'. reflexivity.
  - subst cats. rewrite Hw'. cbn [InventoryPage.store InventoryPage.console].
    destruct (Postgrest.data resp) as [rows|]; cbn.
    + unfold InventoryPage.Set_spread. repeat split.
      * apply Set_fold_NoDup. constructor.
      * intros H. apply Set_fold_In in H. destruct H as [[]|H]; exact H.
      * intros H. apply Set_fold_In. now right.
      * intros R H. apply Set_fold_sorted. exact H.
    + repeat split. intros H. unfold InventoryPage.filterPanel_categoryOptions,
        FilterPanel.categoryOptions. now rewrite H.
  - rewrite Hw'. cbn [InventoryPage.store].
    destruct (Postgrest.data resp); reflexivity.
  - unfold InventoryPage.mount_effects, InventoryPage.M. rewrite execState_seq.
    rewrite InventoryPage_fetchProducts_exec, fetchCategories_exec.
    cbn [InventoryPage.sent]. now rewrite <- app_assoc.
  - unfold InventoryPage.update_effects.
    destruct (InventoryPage.same_deps prev r).
    + cbn. now rewrite app_nil_r.
    + rewrite InventoryPage_fetchProducts_exec. reflexivity.
Qed.

(* ------------------------------------------------------------------ *)
(** ** Scenario runs *)
(* ------------------------------------------------------------------ *)

Example mounted_state :
  InventoryPage.totalCount Scenario.mounted = 23
  /\ length (InventoryPage.products Scenario.mounted) = 10%nat
  /\ InventoryPage.totalPages Scenario.mounted = 3
  /\ InventoryPage.categories Scenario.mounted =
       ["Books"; "Electronics"; "Home & Garden"; "Sports"]
  /\ InventoryPage.page Scenario.on_page_3 = 3.
Proof. vm_compute. repeat split. Qed.

Example lamp_by_price_query :
  InventoryPage_queryState Scenario.lamp_by_price =
    {| Spec.search := "lamp"; Spec.category := "All"; Spec.minPrice := "";
       Spec.maxPrice := ""; Spec.inStockOnly := false; Spec.sortField := "price";
       Spec.sortDirection := asc; Spec.page := 1 |}.
Proof. vm_compute. reflexivity. Qed.

(* ------------------------------------------------------------------ *)
(** ** The query-state setters *)
(* ------------------------------------------------------------------ *)

(** What each handler of the filter panel does to the store. *)
Lemma onChangeSearch_store (v : string) (s : InventoryPage.Store) :
  InventoryPage.handle (InventoryPage.filterPanel_onChangeSearch v) s =
    InventoryPage.with_page 1 (InventoryPage.with_search v s).
Proof. reflexivity. Qed.

Lemma onChangeCategory_store (v : string) (s : InventoryPage.Store) :
  InventoryPage.handle (InventoryPage.filterPanel_onChangeCategory v) s =
    InventoryPage.with_page 1 (InventoryPage.with_category v s).
Proof. reflexivity. Qed.

Lemma onChangeMinPrice_store (v : string) (s : InventoryPage.Store) :
  InventoryPage.handle (InventoryPage.filterPanel_onChangeMinPrice v) s =
    InventoryPage.with_minPrice v s.
Proof. reflexivity. Qed.

Lemma onChangeMaxPrice_store (v : string) (s : InventoryPage.Store) :
  InventoryPage.handle (InventoryPage.filterPanel_onChangeMaxPrice v) s =
    InventoryPage.with_maxPrice v s.
Proof. reflexivity. Qed.

Lemma onChangeInStockOnly_store (b : bool) (s : InventoryPage.Store) :
  InventoryPage.handle (InventoryPage.filterPanel_onChangeInStockOnly b) s =
    InventoryPage.with_inStockOnly b s.
Proof. reflexivity. Qed.

Lemma handleSort_store (colKey : string) (s : InventoryPage.Store) :
  InventoryPage.handle (InventoryPage.productTable_handleSort s colKey) s =
    InventoryPage.with_sortBy colKey
      (InventoryPage.with_sortOrder
         (if (InventoryPage.sortBy s =? colKey)%string
             && SortOrder_eqb (InventoryPage.sortOrder s) asc
          then desc else asc) s).
Proof. reflexivity. Qed.

Lemma clearFilters_store (s : InventoryPage.Store) :
  InventoryPage.handle InventoryPage.filterPanel_onClickClear s =
    InventoryPage.with_page 1
      (InventoryPage.with_inStockOnly false
         (InventoryPage.with_maxPrice ""
            (InventoryPage.with_minPrice ""
               (InventoryPage.with_category "All" (InventoryPage.with_search "" s))))).
Proof. reflexivity. Qed.

Lemma legacy_clearFilters_store (s : LegacyApp.Store) :
  LegacyApp.handle LegacyApp.clearFilters s =
    LegacyApp.with_page 1
      (LegacyApp.with_inStockOnly false
         (LegacyApp.with_maxPrice ""
            (LegacyApp.with_minPrice ""
               (LegacyApp.with_category "All" (LegacyApp.with_search "" s))))).
Proof. reflexivity. Qed.

(** The part of the page-reset rule the handlers keep: the search and the
    category setter return to page 1, the sort setter leaves the page. *)
Lemma search_category_setters_reset_page (v : string) (s : InventoryPage.Store) :
  InventoryPage.page (InventoryPage.handle (InventoryPage.filterPanel_onChangeSearch v) s) = 1
  /\ InventoryPage.page
       (InventoryPage.handle (InventoryPage.filterPanel_onChangeCategory v) s) = 1.
Proof. split; reflexivity. Qed.

Lemma sort_setter_keeps_page (colKey : string) (s : InventoryPage.Store) :
  InventoryPage.page
    (InventoryPage.handle (InventoryPage.productTable_handleSort s colKey) s) =
  InventoryPage.page s.
Proof. reflexivity. Qed.

(** The price and stock setters leave the page where it is, in both
    components. *)
Lemma price_stock_setters_keep_page (v : string) (b : bool) (s : InventoryPage.Store) :
  InventoryPage.page
    (InventoryPage.handle (InventoryPage.filterPanel_onChangeMinPrice v) s) =
    InventoryPage.page s
  /\ InventoryPage.page
       (InventoryPage.handle (InventoryPage.filterPanel_onChangeMaxPrice v) s) =
       InventoryPage.page s
  /\ InventoryPage.page
       (InventoryPage.handle (InventoryPage.filterPanel_onChangeInStockOnly b) s) =
       InventoryPage.page s.
Proof. repeat split. Qed.

Lemma legacy_price_stock_setters_keep_page (v : string) (b : bool) (s : LegacyApp.Store) :
  LegacyApp.page (LegacyApp.handle (LegacyApp.onChangeMinPrice v) s) = LegacyApp.page s
  /\ LegacyApp.page (LegacyApp.handle (LegacyApp.onChangeMaxPrice v) s) = LegacyApp.page s
  /\ LegacyApp.page (LegacyApp.handle (LegacyApp.onChangeInStockOnly b) s) =
       LegacyApp.page s.
Proof. repeat split. Qed.

(** C2, at the input where it fails. On page 3 of 3 the search and category
    setters return to page 1 and a click on a column header stays on page 3,
    as claimed; the minimum price, maximum price and in-stock setters stay on
    page 3 as well, where the claim has page 1. *)
Theorem filter_setters_on_page_3 :
  InventoryPage.page Scenario.on_page_3 = 3
  /\ InventoryPage.page
       (InventoryPage.handle (InventoryPage.filterPanel_onChangeSearch "lamp")
          Scenario.on_page_3) = 1
  /\ InventoryPage.page
       (InventoryPage.handle (InventoryPage.filterPanel_onChangeCategory "Books")
          Scenario.on_page_3) = 1
  /\ InventoryPage.page
       (InventoryPage.handle
          (InventoryPage.productTable_handleSort Scenario.on_page_3 "price")
          Scenario.on_page_3) = 3
  /\ InventoryPage.page
       (InventoryPage.handle (InventoryPage.filterPanel_onChangeMinPrice "50")
          Scenario.on_page_3) = 3
  /\ InventoryPage.page
       (InventoryPage.handle (InventoryPage.filterPanel_onChangeMaxPrice "10")
          Scenario.on_page_3) = 3
  /\ InventoryPage.page
       (InventoryPage.handle (InventoryPage.filterPanel_onChangeInStockOnly true)
          Scenario.on_page_3) = 3.
Proof.
  assert (H3 : InventoryPage.page Scenario.on_page_3 = 3) by (vm_compute; reflexivity).
  destruct (price_stock_setters_keep_page "50" true Scenario.on_page_3) as (Hmin & _ & Hst).
  destruct (price_stock_setters_keep_page "10" true Scenario.on_page_3) as (_ & Hmax & _).
  rewrite Hmin, Hmax, Hst, sort_setter_keeps_page.
  repeat split; exact H3.
Qed.

(** C4, at the input where it fails. On page 4 of a search for "x" sorted
    by price descending, Clear empties the search, returns the category to
    "All", drops both price bounds and the stock flag and goes to page 1, as
    claimed; the sort column stays "price" and the order descending, where
    the claim has "name" ascending.  The monolithic page does the same. *)
Theorem clearFilters_leaves_sort_state :
  let s := InventoryPage.handle InventoryPage.filterPanel_onClickClear
             Scenario.searched_x_page_4 in
  let l := LegacyApp.handle LegacyApp.clearFilters Scenario.legacy_searched_x_page_4 in
  (InventoryPage.search s = "" /\ InventoryPage.category s = "All"
   /\ InventoryPage.minPrice s = "" /\ InventoryPage.maxPrice s = ""
   /\ InventoryPage.inStockOnly s = false /\ InventoryPage.page s = 1
   /\ InventoryPage.sortBy s = "price" /\ InventoryPage.sortOrder s = desc)
  /\ (LegacyApp.search l = "" /\ LegacyApp.category l = "All"
      /\ LegacyApp.minPrice l = "" /\ LegacyApp.maxPrice l = ""
      /\ LegacyApp.inStockOnly l = false /\ LegacyApp.page l = 1
      /\ LegacyApp.sortBy l = "price" /\ LegacyApp.sortOrder l = desc).
Proof.
  cbv zeta. rewrite clearFilters_store, legacy_clearFilters_store.
  repeat split.
Qed.

(** Clear on any store: sort column and order are never touched. *)
Lemma clearFilters_keeps_sort (s : InventoryPage.Store) (l : LegacyApp.Store) :
  let s' := InventoryPage.handle InventoryPage.filterPanel_onClickClear s in
  let l' := LegacyApp.handle LegacyApp.clearFilters l in
  InventoryPage.sortBy s' = InventoryPage.sortBy s
  /\ InventoryPage.sortOrder s' = InventoryPage.sortOrder s
  /\ LegacyApp.sortBy l' = LegacyApp.sortBy l
  /\ LegacyApp.sortOrder l' = LegacyApp.sortOrder l.
Proof. repeat split. Qed.

(* ------------------------------------------------------------------ *)
(** ** Sorting by a column header *)
(* ------------------------------------------------------------------ *)

(** [handleSort] of the product table: a click on the active column flips
    the order, a click on another column makes it the active one, ascending. *)
Lemma handleSort_toggles_or_switches (colKey : string) (s : InventoryPage.Store) :
  let s' := InventoryPage.handle (InventoryPage.productTable_handleSort s colKey) s in
  InventoryPage.sortBy s' = colKey
  /\ InventoryPage.sortOrder s' =
       (if (InventoryPage.sortBy s =? colKey)%string
        then match InventoryPage.sortOrder s with asc => desc | desc => asc end
        else asc).
Proof.
  cbv zeta. rewrite handleSort_store. cbn.
  destruct (InventoryPage.sortBy s =? colKey)%string, (InventoryPage.sortOrder s);
    split; reflexivity.
Qed.

(** The header handler of the monolithic page on its five headers. *)
Lemma legacy_onClickHeader_store (header : string) (s : LegacyApp.Store) :
  LegacyApp.handle (LegacyApp.onClickHeader s header) s =
    let col := replace_char " " "_" (toLowerCase header) in
    LegacyApp.with_sortBy
      (if (col =? "stock")%string then "stock_quantity"
       else if (col =? "name")%string then "name" else col)
      (LegacyApp.with_sortOrder
         (if (LegacyApp.sortBy s =? col)%string && SortOrder_eqb (LegacyApp.sortOrder s) asc
          then desc else asc) s).
Proof. reflexivity. Qed.

(** C7, at the input where it fails. With the stock column active and
    ascending, the monolithic page answers a click on the Stock header with
    the same state, ascending again: the handler compares the active column
    "stock_quantity" with the header's own key "stock".  [handleSort] of the
    product table flips the same state to descending, as claimed. *)
Theorem legacy_stock_header_never_descends :
  let s := Scenario.legacy_sorted_by_stock in
  let s' := LegacyApp.handle (LegacyApp.onClickHeader s "Stock") s in
  let i :=
    InventoryPage.with_sortBy "stock_quantity"
      (InventoryPage.with_sortOrder asc (InventoryPage.initial 0)) in
  let i' := InventoryPage.handle (InventoryPage.productTable_handleSort i "stock_quantity") i in
  (LegacyApp.sortBy s = "stock_quantity" /\ LegacyApp.sortOrder s = asc)
  /\ (LegacyApp.sortBy s' = "stock_quantity" /\ LegacyApp.sortOrder s' = asc)
  /\ (InventoryPage.sortBy i' = "stock_quantity" /\ InventoryPage.sortOrder i' = desc).
Proof. vm_compute. repeat split. Qed.

(** On the other four headers the monolithic handler does toggle. *)
Lemma legacy_other_headers_toggle (s : LegacyApp.Store) :
  forall header col,
    In (header, col)
       [("Name", "name"); ("Category", "category"); ("Price", "price");
        ("Created At", "created_at")] ->
    let s' := LegacyApp.handle (LegacyApp.onClickHeader s header) s in
    LegacyApp.sortBy s' = col
    /\ LegacyApp.sortOrder s' =
         (if (LegacyApp.sortBy s =? col)%string
          then match LegacyApp.sortOrder s with asc => desc | desc => asc end
          else asc).
Proof.
  intros header col Hin. cbv zeta. rewrite legacy_onClickHeader_store.
  cbn in Hin.
  destruct Hin as [H|[H|[H|[H|[]]]]]; injection H as <- <-;
    match goal with
    | |- context [replace_char ?a ?b (toLowerCase ?h)] =>
        let c := eval vm_compute in (replace_char a b (toLowerCase h)) in
        change (replace_char a b (toLowerCase h)) with c
    end;
    cbn;
    match goal with
    | |- context [(LegacyApp.sortBy s =? ?b)%string] =>
        destruct (LegacyApp.sortBy s =? b)%string
    end;
    destruct (LegacyApp.sortOrder s); split; reflexivity.
Qed.

(* ------------------------------------------------------------------ *)
(** ** Page count and pagination controls *)
(* ------------------------------------------------------------------ *)

Lemma Math_ceil_div_spec (a : Z) :
  10 * (Math_ceil_div a 10 - 1) < a <= 10 * Math_ceil_div a 10.
Proof.
  unfold Math_ceil_div.
  pose proof (Z.div_mod (- a) 10 ltac:(lia)).
  pose proof (Z.mod_pos_bound (- a) 10 ltac:(lia)).
  lia.
Qed.

(** C3 as stated fails on the empty result: after the mount against the
    empty store the count is 0 and the page is 1, the label reads "Page 1 of
    0", the next button is not disabled, and a click on it leads to page 2. *)
Lemma next_enabled_on_empty_result :
  let s := Scenario.mounted_empty in
  InventoryPage.totalCount s = 0
  /\ InventoryPage.page s = 1
  /\ InventoryPage.totalPages s = 0
  /\ InventoryPage.pagination_pageLabel s = "Page 1 of 0"
  /\ InventoryPage.pagination_nextDisabled s = false
  /\ InventoryPage.page (InventoryPage.handle (InventoryPage.pagination_clickNext s) s) = 2.
Proof. vm_compute. repeat split. Qed.

(** C3 (as the code has it). For every total count [c], [totalPages] is
    the ceiling of [c / 10]; for [c = 0] that is 0, and the label shows it
    as it is; the previous button is disabled on page 1, so the page does not
    go below 1 there; the next button is disabled when the page equals
    [totalPages], and a click then leaves the page. *)
Theorem totalPages_ceiling_and_boundary_controls :
  forall (c p : Z) (s : InventoryPage.Store),
    let sc := InventoryPage.with_totalCount c s in
    let first := InventoryPage.with_page 1 sc in
    let last := InventoryPage.with_page (InventoryPage.totalPages sc) sc in
    10 * (InventoryPage.totalPages sc - 1) < c <= 10 * InventoryPage.totalPages sc
    /\ InventoryPage.totalPages (InventoryPage.with_totalCount 0 s) = 0
    /\ InventoryPage.pagination_pageLabel
         (InventoryPage.with_page p sc) =
         "Page " ++ show_int p ++ " of " ++ show_int (InventoryPage.totalPages sc)
    /\ InventoryPage.pagination_pageLabel
         (InventoryPage.with_page 1 (InventoryPage.with_totalCount 0 s)) = "Page 1 of 0"
    /\ InventoryPage.page
         (InventoryPage.handle (InventoryPage.pagination_clickPrev first) first) = 1
    /\ InventoryPage.pagination_nextDisabled last = true
    /\ InventoryPage.page
         (InventoryPage.handle (InventoryPage.pagination_clickNext last) last) =
         InventoryPage.totalPages sc.
Proof.
  intros c p s sc first last.
  repeat match goal with |- _ /\ _ => split end; try reflexivity.
  - apply (Math_ceil_div_spec c).
  - apply (Math_ceil_div_spec c).
  - unfold InventoryPage.pagination_nextDisabled, Pagination.nextDisabled.
    subst last. cbn [InventoryPage.page InventoryPage.with_page].
    change (InventoryPage.totalPages
              (InventoryPage.with_page (InventoryPage.totalPages sc) sc))
      with (InventoryPage.totalPages sc).
    apply Z.eqb_refl.
  - unfold InventoryPage.pagination_clickNext, Pagination.clickNext, Pagination.nextDisabled.
    subst last. cbn [InventoryPage.page InventoryPage.with_page].
    change (InventoryPage.totalPages
              (InventoryPage.with_page (InventoryPage.totalPages sc) sc))
      with (InventoryPage.totalPages sc).
    rewrite Z.eqb_refl. reflexivity.
Qed.

(* ------------------------------------------------------------------ *)
(** ** [parseFloat] on sample texts *)
(* ------------------------------------------------------------------ *)

Example parseFloat_50 : JS.parseFloat "50" = JS.Decimal false 50 0.
Proof. reflexivity. Qed.

Example parseFloat_frac : JS.parseFloat " 12.50e1x" = JS.Decimal false 1250 (-1).
Proof. reflexivity. Qed.

Example parseFloat_abc : JS.parseFloat "abc" = JS.NaN.
Proof. reflexivity. Qed.

Example parseFloat_dot : JS.parseFloat "." = JS.NaN.
Proof. reflexivity. Qed.

Example parseFloat_huge : JS.parseFloat "1e999" = JS.Infinity false.
Proof. vm_compute. reflexivity. Qed.

Example parseFloat_neg_inf : JS.parseFloat "-Infinity" = JS.Infinity true.
Proof. reflexivity. Qed.

Example parseFloat_empty : JS.parseFloat "" = JS.NaN.
Proof. reflexivity. Qed.

(* ------------------------------------------------------------------ *)
(** ** The theorems at the scenarios *)
(* ------------------------------------------------------------------ *)

Lemma fetchProducts_compiles_reference_request_witness :
  Spec.honours_window Scenario.lamp_store
  /\ exists q : Postgrest.Request,
       InventoryPage.sent
         (execState (InventoryPage.fetchProducts Scenario.lamp_store Scenario.lamp_by_price)
            (Scenario.world Scenario.lamp_by_price)) = [q]
       /\ Postgrest.filters q =
            [Postgrest.mkFilter "name" Postgrest.ilike_op (Postgrest.Text "%lamp%")]
       /\ Postgrest.ordering q = [("price", true)]
       /\ Postgrest.offset q = Some 0
       /\ Postgrest.limit q = Some 10.
Proof.
  split; [apply MemoryStore_honours_window|].
  destruct (fetchProducts_compiles_reference_request
              Scenario.lamp_store Scenario.lamp_by_price
              (Scenario.world Scenario.lamp_by_price)
              (MemoryStore_honours_window _ _ _))
    as (q & Hsent & Hq & _).
  exists q. split; [exact Hsent|].
  rewrite Hq. vm_compute. repeat split.
Defined.

Lemma useDebounce_burst_witness :
  UseDebounce.delay (UseDebounce.mount 0 "" 400) < 2147483648
  /\ String.eqb "l" (UseDebounce.value (UseDebounce.mount 0 "" 400)) = false
  /\ UseDebounce.burst String.eqb 400 1000 "l" Scenario.typing_lamp
  /\ UseDebounce.propagated
       (UseDebounce.tick 2000
          (UseDebounce.changes String.eqb ((1000, "l") :: Scenario.typing_lamp)
             (UseDebounce.mount 0 "" 400))) =
       [(400, ""); (1700, "lamp")]
  /\ UseDebounce.propagated
       (UseDebounce.tick 1699
          (UseDebounce.changes String.eqb ((1000, "l") :: Scenario.typing_lamp)
             (UseDebounce.mount 0 "" 400))) =
       [(400, "")].
Proof.
  assert (Hb : UseDebounce.burst String.eqb 400 1000 "l" Scenario.typing_lamp).
  { cbn. repeat split; lia. }
  split; [reflexivity|]. split; [reflexivity|]. split; [exact Hb|]. split.
  - destruct (useDebounce_burst_propagates_final_value_only
                string String.eqb (UseDebounce.mount 0 "" 400) 1000 "l"
                Scenario.typing_lamp 2000 eq_refl eq_refl Hb) as (_ & Hp & _).
    exact Hp.
  - destruct (useDebounce_burst_propagates_final_value_only
                string String.eqb (UseDebounce.mount 0 "" 400) 1000 "l"
                Scenario.typing_lamp 1699 eq_refl eq_refl Hb) as (_ & Hp & _).
    exact Hp.
Defined.

Lemma fetchProducts_implementations_agree_witness :
  exists q : Postgrest.Request,
    LegacyApp.sent
      (execState (LegacyApp.fetchProducts Scenario.lamp_store Scenario.legacy_lamp_by_price)
         (Scenario.legacy_world Scenario.legacy_lamp_by_price)) = [q]
    /\ InventoryPage.sent
         (execState (InventoryPage.fetchProducts Scenario.lamp_store Scenario.lamp_by_price)
            (Scenario.world Scenario.lamp_by_price)) = [q].
Proof.
  exact (fetchProducts_implementations_agree
           Scenario.lamp_store Scenario.lamp_store
           Scenario.legacy_lamp_by_price Scenario.lamp_by_price
           (Scenario.legacy_world Scenario.legacy_lamp_by_price)
           (Scenario.world Scenario.lamp_by_price)
           eq_refl eq_refl eq_refl eq_refl eq_refl eq_refl eq_refl eq_refl).
Defined.

Lemma fetchCategories_witness :
  let w := Scenario.world (InventoryPage.initial 0) in
  let cats :=
    InventoryPage.categories
      (InventoryPage.store
         (execState (InventoryPage.fetchCategories Scenario.category_store) w)) in
  StronglySorted Scenario.ascending (map row_category Scenario.category_rows)
  /\ StronglySorted Scenario.ascending cats
  /\ NoDup cats
  /\ InventoryPage.filterPanel_categoryOptions
       (InventoryPage.store
          (execState (InventoryPage.fetchCategories MemoryStore.unreachable) w)) = ["All"].
Proof.
  cbv zeta.
  assert (Hs : StronglySorted Scenario.ascending (map row_category Scenario.category_rows)).
  { cbn. repeat constructor. }
  pose proof (fetchCategories_distinct_ascending_silent
                Scenario.lamp_store Scenario.category_store
                (Scenario.world (InventoryPage.initial 0))
                (InventoryPage.initial 0) (InventoryPage.initial 0)) as Hok.
  pose proof (fetchCategories_distinct_ascending_silent
                Scenario.lamp_store MemoryStore.unreachable
                (Scenario.world (InventoryPage.initial 0))
                (InventoryPage.initial 0) (InventoryPage.initial 0)) as Hfail.
  cbv zeta in Hok, Hfail.
  destruct Hok as (_ & (Hnd & _ & Hsorted) & _).
  destruct Hfail as (_ & (_ & _ & Hall) & _).
  split; [exact Hs|]. split; [exact (Hsorted _ Hs)|]. split; [exact Hnd|].
  exact (Hall eq_refl).
Defined.

Lemma fetchProducts_failure_decoding_retry_witness :
  let r := Scenario.mounted in
  let w := Scenario.world r in
  let failed := execState (InventoryPage.fetchProducts MemoryStore.unreachable r) w in
  let nulls := execState (InventoryPage.fetchProducts Scenario.null_store r) w in
  InventoryPage.same_deps r r = true
  /\ (InventoryPage.error (InventoryPage.store failed) =
        Some "Failed to load products. Please check your connection and try again."
      /\ InventoryPage.products (InventoryPage.store failed) =
           InventoryPage.products (InventoryPage.store w)
      /\ InventoryPage.totalCount (InventoryPage.store failed) =
           InventoryPage.totalCount (InventoryPage.store w))
  /\ (InventoryPage.products (InventoryPage.store nulls) = []
      /\ InventoryPage.totalCount (InventoryPage.store nulls) = 0)
  /\ InventoryPage.sent
       (execState (InventoryPage.fetchProducts MemoryStore.unreachable r) failed) =
       ([] ++ [Spec.reference_request (InventoryPage_queryState r);
               Spec.reference_request (InventoryPage_queryState r)])%list.
Proof.
  cbv zeta.
  assert (Hsame : InventoryPage.same_deps Scenario.mounted Scenario.mounted = true)
    by (vm_compute; reflexivity).
  pose proof (fetchProducts_failure_decoding_retry MemoryStore.unreachable
                Scenario.mounted (Scenario.world Scenario.mounted)) as Hfail.
  pose proof (fetchProducts_failure_decoding_retry Scenario.null_store
                Scenario.mounted (Scenario.world Scenario.mounted)) as Hnull.
  cbv zeta in Hfail, Hnull.
  destruct Hfail as ((He & Hp & Hc) & _ & _ & _ & Hretry).
  destruct Hnull as ((_ & Hp0 & Hc0) & _).
  split; [exact Hsame|].
  split; [split; [exact He | split; [exact Hp | exact Hc]]|].
  split; [split; [exact Hp0 | exact Hc0]|].
  exact (Hretry Scenario.mounted Hsame).
Defined.

(* ================================================================== *)
(** * Further properties of the components *)
(* ================================================================== *)

(* ------------------------------------------------------------------ *)
(** ** Pagination *)
(* ------------------------------------------------------------------ *)

Lemma clickPrev_store (s : InventoryPage.Store) :
  InventoryPage.handle (InventoryPage.pagination_clickPrev s) s =
    if InventoryPage.page s =? 1 then s
    else InventoryPage.with_page (InventoryPage.page s - 1) s.
Proof.
  unfold InventoryPage.pagination_clickPrev, Pagination.clickPrev, Pagination.prevDisabled.
  destruct (InventoryPage.page s =? 1); [destruct s|]; reflexivity.
Qed.

Lemma clickNext_store (s : InventoryPage.Store) :
  InventoryPage.handle (InventoryPage.pagination_clickNext s) s =
    if InventoryPage.page s =? InventoryPage.totalPages s then s
    else InventoryPage.with_page (InventoryPage.page s + 1) s.
Proof.
  unfold InventoryPage.pagination_clickNext, Pagination.clickNext, Pagination.nextDisabled.
  destruct (InventoryPage.page s =? InventoryPage.totalPages s); [destruct s|]; reflexivity.
Qed.

(** X1. On a page that has rows (page at least 1 and [(page - 1) * 10]
    below the total count) the range the pagination bar shows is the window
    the fetch of the same render asks for, cut at the total count: it starts
    one after the request's offset, ends at offset + limit or at the total
    count, whichever is smaller, is never empty and never longer than 10. *)
Theorem pagination_range_is_the_requested_window :
  forall (remote : nat -> Postgrest.Request -> Postgrest.Response Product)
         (r : InventoryPage.Store) (w : InventoryPage.World),
    1 <= InventoryPage.page r ->
    (InventoryPage.page r - 1) * 10 < InventoryPage.totalCount r ->
    let first := Pagination.rangeFrom (InventoryPage.page r) (InventoryPage.totalCount r) in
    let last := Pagination.rangeTo (InventoryPage.page r) (InventoryPage.totalCount r) in
    exists (q : Postgrest.Request) (off lim : Z),
      InventoryPage.sent (execState (InventoryPage.fetchProducts remote r) w) =
        (InventoryPage.sent w ++ [q])%list
      /\ Postgrest.offset q = Some off
      /\ Postgrest.limit q = Some lim
      /\ first = off + 1
      /\ last = Z.min (off + lim) (InventoryPage.totalCount r)
      /\ 1 <= first <= last
      /\ last <= InventoryPage.totalCount r
      /\ last - first + 1 <= lim.
Proof.
  intros remote r w Hp Hc first last.
  exists (Spec.reference_request (InventoryPage_queryState r)),
         ((InventoryPage.page r - 1) * 10), 10.
  rewrite InventoryPage_fetchProducts_exec.
  subst first last. unfold Pagination.rangeFrom, Pagination.rangeTo, ITEMS_PER_PAGE.
  cbn [InventoryPage.sent].
  repeat match goal with |- _ /\ _ => split end; try reflexivity; lia.
Qed.

(** X2. The pages cut the rows up: every row number from 1 to the total
    count lies in the shown range of exactly one page between 1 and
    [totalPages]. *)
Theorem every_row_is_on_exactly_one_page :
  forall (s : InventoryPage.Store) (i : Z),
    1 <= i <= InventoryPage.totalCount s ->
    exists p : Z,
      (1 <= p <= InventoryPage.totalPages s
       /\ Pagination.rangeFrom p (InventoryPage.totalCount s) <= i
          <= Pagination.rangeTo p (InventoryPage.totalCount s))
      /\ forall p' : Z,
           1 <= p' <= InventoryPage.totalPages s ->
           Pagination.rangeFrom p' (InventoryPage.totalCount s) <= i
             <= Pagination.rangeTo p' (InventoryPage.totalCount s) ->
           p' = p.
Proof.
  intros s i Hi.
  pose proof (Math_ceil_div_spec (InventoryPage.totalCount s)) as Hceil.
  unfold InventoryPage.totalPages, Pagination.rangeFrom, Pagination.rangeTo, ITEMS_PER_PAGE.
  set (c := InventoryPage.totalCount s) in *.
  set (tp := Math_ceil_div c 10) in *.
  pose proof (Z.div_mod (i - 1) 10 ltac:(lia)) as Hdm.
  pose proof (Z.mod_pos_bound (i - 1) 10 ltac:(lia)) as Hmod.
  exists ((i - 1) / 10 + 1). split.
  - repeat split; lia.
  - intros p' Hp' Hr. lia.
Qed.

(** X3. While the page is between 1 and [totalPages], the two pagination
    buttons keep it there, and move it by at most one page. *)
Theorem pagination_buttons_keep_page_in_range :
  forall s : InventoryPage.Store,
    1 <= InventoryPage.page s <= InventoryPage.totalPages s ->
    let prev := InventoryPage.handle (InventoryPage.pagination_clickPrev s) s in
    let next := InventoryPage.handle (InventoryPage.pagination_clickNext s) s in
    (1 <= InventoryPage.page prev <= InventoryPage.totalPages prev
     /\ InventoryPage.page s - 1 <= InventoryPage.page prev <= InventoryPage.page s)
    /\ (1 <= InventoryPage.page next <= InventoryPage.totalPages next
        /\ InventoryPage.page s <= InventoryPage.page next <= InventoryPage.page s + 1)
    /\ InventoryPage.totalPages prev = InventoryPage.totalPages s
    /\ InventoryPage.totalPages next = InventoryPage.totalPages s.
Proof.
  intros s Hs prev next. subst prev next.
  rewrite clickPrev_store, clickNext_store.
  destruct (Z.eqb_spec (InventoryPage.page s) 1) as [E1|E1];
    destruct (Z.eqb_spec (InventoryPage.page s) (InventoryPage.totalPages s)) as [E2|E2];
    cbn [InventoryPage.page InventoryPage.with_page];
    change (InventoryPage.totalPages (InventoryPage.with_page _ s))
      with (InventoryPage.totalPages s);
    repeat split; lia.
Qed.

(** X4. Next then Previous, and Previous then Next, lead back to the page
    one started from, whenever the first of the two buttons was enabled and
    the page is between 1 and [totalPages]. *)
Theorem next_and_previous_undo_each_other :
  forall s : InventoryPage.Store,
    1 <= InventoryPage.page s <= InventoryPage.totalPages s ->
    let next := InventoryPage.handle (InventoryPage.pagination_clickNext s) s in
    let prev := InventoryPage.handle (InventoryPage.pagination_clickPrev s) s in
    (InventoryPage.pagination_nextDisabled s = false ->
     InventoryPage.handle (InventoryPage.pagination_clickPrev next) next = s)
    /\ (InventoryPage.page s <> 1 ->
        InventoryPage.handle (InventoryPage.pagination_clickNext prev) prev = s).
Proof.
  intros s Hs next prev. subst next prev. split.
  - unfold InventoryPage.pagination_nextDisabled, Pagination.nextDisabled. intros Hn.
    rewrite clickNext_store, Hn, clickPrev_store.
    cbn [InventoryPage.page InventoryPage.with_page].
    destruct (Z.eqb_spec (InventoryPage.page s + 1) 1); [lia|].
    replace (InventoryPage.page s + 1 - 1) with (InventoryPage.page s) by lia.
    destruct s; reflexivity.
  - intros Hn. rewrite clickPrev_store.
    destruct (Z.eqb_spec (InventoryPage.page s) 1); [contradiction|].
    rewrite clickNext_store.
    cbn [InventoryPage.page InventoryPage.with_page].
    change (InventoryPage.totalPages (InventoryPage.with_page _ s))
      with (InventoryPage.totalPages s).
    destruct (Z.eqb_spec (InventoryPage.page s - 1) (InventoryPage.totalPages s)); [lia|].
    replace (InventoryPage.page s - 1 + 1) with (InventoryPage.page s) by lia.
    destruct s; reflexivity.
Qed.

(* ------------------------------------------------------------------ *)
(** ** The debounce hook over its whole life *)
(* ------------------------------------------------------------------ *)

Lemma tick_consistent {T : Type} (now t : Z) (h : UseDebounce.Hook T) :
  now <= t -> Hook_consistent now h -> Hook_consistent t (UseDebounce.tick t h).
Proof.
  unfold Hook_consistent, UseDebounce.tick. intros Hle.
  destruct (UseDebounce.timer h) as [[due v]|] eqn:Ht.
  - intros [Hv Hd]. destruct (due <=? t) eqn:E; cbn.
    + exact Hv.
    + rewrite Ht. split; [exact Hv | lia].
  - intros Hv. rewrite Ht. exact Hv.
Qed.

Lemma tick_value {T : Type} (t : Z) (h : UseDebounce.Hook T) :
  UseDebounce.value (UseDebounce.tick t h) = UseDebounce.value h
  /\ UseDebounce.delay (UseDebounce.tick t h) = UseDebounce.delay h.
Proof.
  unfold UseDebounce.tick. destruct (UseDebounce.timer h) as [[due v]|]; [|split; reflexivity].
  destruct (due <=? t); split; reflexivity.
Qed.

Lemma render_consistent {T : Type} (T_eqb : T -> T -> bool) (now t : Z) (v : T) (d : Z)
    (h : UseDebounce.Hook T) :
  now <= t -> Hook_consistent now h ->
  Hook_consistent t (UseDebounce.render T_eqb t v d h).
Proof.
  intros Hle Hc. unfold UseDebounce.render.
  pose proof (tick_consistent now t h Hle Hc) as Hc'.
  cbv zeta. destruct (T_eqb v (UseDebounce.value (UseDebounce.tick t h))
                      && (d =? UseDebounce.delay (UseDebounce.tick t h))).
  - exact Hc'.
  - unfold Hook_consistent. cbn. split; [reflexivity | lia].
Qed.

Lemma reachable_consistent {T : Type} (T_eqb : T -> T -> bool) (now : Z)
    (h : UseDebounce.Hook T) :
  Hook_reachable T_eqb now h -> Hook_consistent now h.
Proof.
  induction 1 as [now v d | now t v d h Hr IH Hle | now t h Hr IH Hle].
  - unfold Hook_consistent. cbn. split; [reflexivity | lia].
  - apply (render_consistent T_eqb now); assumption.
  - apply (tick_consistent now); assumption.
Qed.

(** X5. Whatever a mounted hook has been through, an input handed to it in
    a render becomes its output once the input has been left alone for the
    time its timer waits: after a render with value [v] and delay [d] at
    time [t0], the hook returns [v] at every time from
    [t0 + timeout_ms d] on, which is [t0 + d] for a delay from 0 to below
    2^31.  And a hook with no timer pending returns its current input. *)
Theorem useDebounce_output_catches_up_with_input :
  forall (T : Type) (T_eqb : T -> T -> bool) (now t0 t : Z) (v : T) (d : Z)
         (h : UseDebounce.Hook T),
    (forall a b : T, T_eqb a b = true -> a = b) ->
    Hook_reachable T_eqb now h ->
    now <= t0 ->
    t0 + UseDebounce.timeout_ms d <= t ->
    let h1 := UseDebounce.render T_eqb t0 v d h in
    UseDebounce.useDebounce (UseDebounce.tick t h1) = v
    /\ UseDebounce.timer (UseDebounce.tick t h1) = None
    /\ (UseDebounce.timer h = None -> UseDebounce.useDebounce h = UseDebounce.value h)
    /\ (0 <= d < 2147483648 -> UseDebounce.timeout_ms d = d).
Proof.
  intros T T_eqb now t0 t v d h Hsound Hr Hle Ht h1.
  pose proof (reachable_consistent T_eqb now h Hr) as Hc.
  pose proof (render_consistent T_eqb now t0 v d h Hle Hc) as Hc1. fold h1 in Hc1.
  assert (Hvd : UseDebounce.value h1 = v /\ UseDebounce.delay h1 = d).
  { subst h1. unfold UseDebounce.render. cbv zeta.
    destruct (tick_value t0 h) as [Hv Hd].
    destruct (T_eqb v (UseDebounce.value (UseDebounce.tick t0 h))) eqn:E1; cbn;
      [|split; reflexivity].
    destruct (Z.eqb_spec d (UseDebounce.delay (UseDebounce.tick t0 h))) as [E2|E2]; cbn;
      [|split; reflexivity].
    apply Hsound in E1. split; congruence. }
  destruct Hvd as [Hv Hd].
  repeat match goal with |- _ /\ _ => split end.
  - unfold UseDebounce.useDebounce, UseDebounce.tick, Hook_consistent in *.
    destruct (UseDebounce.timer h1) as [[due v']|].
    + destruct Hc1 as [Hv' Hdue]. rewrite Hd in Hdue.
      destruct (Z.leb_spec due t); [cbn; congruence | lia].
    + congruence.
  - unfold UseDebounce.tick, Hook_consistent in *.
    destruct (UseDebounce.timer h1) as [[due v']|] eqn:E; [|exact E].
    destruct Hc1 as [_ Hdue]. rewrite Hd in Hdue.
    destruct (Z.leb_spec due t); [reflexivity | lia].
  - intros Hn. unfold Hook_consistent in Hc. rewrite Hn in Hc. exact Hc.
  - apply timeout_ms_small.
Qed.

(** X6. The cleanup on unmount: a timer that is pending when the
    component goes away would have run its callback at its due time; after
    the unmount it never does, at whatever later time, and the output and the
    history of [setDebouncedValue] calls stay what they were. *)
Theorem useDebounce_silent_after_unmount :
  forall (T : Type) (now t due : Z) (v : T) (h : UseDebounce.Hook T),
    UseDebounce.timer h = Some (due, v) ->
    now < due -> due <= t ->
    let u := UseDebounce.unmount now h in
    UseDebounce.propagated (UseDebounce.tick t h) =
      (UseDebounce.propagated h ++ [(due, v)])%list
    /\ UseDebounce.useDebounce (UseDebounce.tick t h) = v
    /\ UseDebounce.propagated (UseDebounce.tick t u) = UseDebounce.propagated h
    /\ UseDebounce.useDebounce (UseDebounce.tick t u) = UseDebounce.useDebounce h
    /\ UseDebounce.timer (UseDebounce.tick t u) = None.
Proof.
  intros T now t due v h Ht Hnow Hdue u.
  assert (Hk : UseDebounce.tick now h = h).
  { unfold UseDebounce.tick. rewrite Ht.
    destruct (Z.leb_spec due now); [lia | reflexivity]. }
  assert (Hu : u = UseDebounce.mkHook (UseDebounce.value h) (UseDebounce.delay h)
                     (UseDebounce.debouncedValue h) None (UseDebounce.propagated h)).
  { subst u. unfold UseDebounce.unmount. cbv zeta. rewrite Hk. reflexivity. }
  rewrite Hu. unfold UseDebounce.tick, UseDebounce.useDebounce. rewrite Ht.
  destruct (Z.leb_spec due t); [|lia]. cbn. repeat split.
Qed.

(* ------------------------------------------------------------------ *)
(** ** Invariants of a session *)
(* ------------------------------------------------------------------ *)

Lemma session_step_ok (s : InventoryPage.Store) (e : Session.Event) :
  session_ok s -> session_ok (Session.step s e).
Proof.
  unfold session_ok. intros [Hp Hs].
  destruct e as [v|v|v|v|b| |n| | |now|remote|remote]; cbn [Session.step].
  - rewrite onChangeSearch_store. split; [cbn; lia | exact Hs].
  - rewrite onChangeCategory_store. split; [cbn; lia | exact Hs].
  - rewrite onChangeMinPrice_store. split; assumption.
  - rewrite onChangeMaxPrice_store. split; assumption.
  - rewrite onChangeInStockOnly_store. split; assumption.
  - rewrite clearFilters_store. split; [cbn; lia | exact Hs].
  - destruct (nth_error ProductTable.COLUMNS n) as [[label colKey]|] eqn:E;
      [|split; assumption].
    rewrite handleSort_store. split; [exact Hp|].
    cbn [InventoryPage.sortBy InventoryPage.with_sortBy].
    apply nth_error_In in E. apply (in_map snd) in E. exact E.
  - rewrite clickPrev_store.
    destruct (Z.eqb_spec (InventoryPage.page s) 1); [split; assumption|].
    split; [cbn; lia | exact Hs].
  - rewrite clickNext_store.
    destruct (InventoryPage.page s =? InventoryPage.totalPages s); [split; assumption|].
    split; [cbn; lia | exact Hs].
  - split; assumption.
  - rewrite InventoryPage_fetchProducts_exec. cbn [InventoryPage.store].
    unfold InventoryPage_settle, Session.world. cbn [InventoryPage.store].
    destruct (Postgrest.error _); split; assumption.
  - rewrite fetchCategories_exec. cbn [InventoryPage.store].
    unfold Session.world. cbn [InventoryPage.store].
    destruct (Postgrest.data _); split; assumption.
Qed.

Lemma session_run_ok (events : list Session.Event) :
  forall s, session_ok s -> session_ok (Session.run events s).
Proof.
  unfold Session.run.
  induction events as [|e events IH]; intros s Hs; [exact Hs|].
  cbn [fold_left]. apply IH, session_step_ok, Hs.
Qed.

(** X7. Through any sequence of inputs, clicks, re-renders and completed
    fetches after the mount, the page number stays at least 1 and the sort
    column stays one of the five columns of the table header, each a column
    of the [products] table.  So every request the page can send has an
    offset that is a non-negative multiple of 10 and orders by an existing
    column. *)
Theorem session_requests_are_well_formed :
  forall (events : list Session.Event) (now : Z)
         (remote : nat -> Postgrest.Request -> Postgrest.Response Product)
         (w : InventoryPage.World),
    let s := Session.run events (InventoryPage.initial now) in
    1 <= InventoryPage.page s
    /\ In (InventoryPage.sortBy s) (map snd ProductTable.COLUMNS)
    /\ In (InventoryPage.sortBy s) Session.table_columns
    /\ exists (q : Postgrest.Request) (off : Z) (ascending : bool),
         InventoryPage.sent (execState (InventoryPage.fetchProducts remote s) w) =
           (InventoryPage.sent w ++ [q])%list
         /\ Postgrest.offset q = Some off
         /\ 0 <= off /\ off mod 10 = 0
         /\ Postgrest.ordering q = [(InventoryPage.sortBy s, ascending)].
Proof.
  intros events now remote w s.
  assert (Hok : session_ok s).
  { apply session_run_ok. split; [cbn; lia | cbn; tauto]. }
  destruct Hok as [Hp Hs].
  split; [exact Hp|]. split; [exact Hs|]. split.
  - cbn in Hs. cbn. intuition.
  - exists (Spec.reference_request (InventoryPage_queryState s)),
           ((InventoryPage.page s - 1) * 10),
           (match InventoryPage.sortOrder s with asc => true | desc => false end).
    rewrite InventoryPage_fetchProducts_exec. cbn [InventoryPage.sent].
    repeat split; try lia.
    apply Z.mod_mul. lia.
Qed.

Lemma legacy_clickPrev_store (s : LegacyApp.Store) :
  LegacyApp.handle (LegacyApp.clickPrev s) s =
    if LegacyApp.page s =? 1 then s else LegacyApp.with_page (LegacyApp.page s - 1) s.
Proof.
  unfold LegacyApp.clickPrev, LegacyApp.prevDisabled.
  destruct (LegacyApp.page s =? 1); [destruct s|]; reflexivity.
Qed.

Lemma legacy_clickNext_store (s : LegacyApp.Store) :
  LegacyApp.handle (LegacyApp.clickNext s) s =
    if LegacyApp.page s =? LegacyApp.totalPages s then s
    else LegacyApp.with_page (LegacyApp.page s + 1) s.
Proof.
  unfold LegacyApp.clickNext, LegacyApp.nextDisabled.
  destruct (LegacyApp.page s =? LegacyApp.totalPages s); [destruct s|]; reflexivity.
Qed.

Lemma legacy_session_step_ok (s : LegacyApp.Store) (e : Session.LegacyEvent) :
  legacy_session_ok s -> legacy_session_ok (Session.legacy_step s e).
Proof.
  unfold legacy_session_ok. intros [Hp Hs].
  destruct e as [v|v|v|v|b| |n| | |remote]; cbn [Session.legacy_step].
  - split; [cbn; lia | exact Hs].
  - split; [cbn; lia | exact Hs].
  - split; assumption.
  - split; assumption.
  - split; assumption.
  - split; [cbn; lia | exact Hs].
  - do 5 (destruct n as [|n]; [split; [exact Hp | vm_compute; tauto]|]).
    destruct n; split; assumption.
  - rewrite legacy_clickPrev_store.
    destruct (Z.eqb_spec (LegacyApp.page s) 1); [split; assumption|].
    split; [cbn; lia | exact Hs].
  - rewrite legacy_clickNext_store.
    destruct (LegacyApp.page s =? LegacyApp.totalPages s); [split; assumption|].
    split; [cbn; lia | exact Hs].
  - rewrite LegacyApp_fetchProducts_exec. cbn [LegacyApp.store].
    unfold LegacyApp_settle, Session.legacy_world. cbn [LegacyApp.store].
    destruct (Postgrest.error _); split; assumption.
Qed.

(** X8. The monolithic page keeps the same two invariants: whatever header
    is clicked, its label is translated to a column of the table (Stock to
    [stock_quantity], Created At to [created_at]), and the page number never
    drops below 1; so the requests it sends order by an existing column from
    a non-negative offset. *)
Theorem legacy_session_requests_are_well_formed :
  forall (events : list Session.LegacyEvent)
         (remote : nat -> Postgrest.Request -> Postgrest.Response Product)
         (w : LegacyApp.World),
    let s := Session.legacy_run events LegacyApp.initial in
    1 <= LegacyApp.page s
    /\ In (LegacyApp.sortBy s) Session.table_columns
    /\ exists (q : Postgrest.Request) (off : Z) (ascending : bool),
         LegacyApp.sent (execState (LegacyApp.fetchProducts remote s) w) =
           (LegacyApp.sent w ++ [q])%list
         /\ Postgrest.offset q = Some off
         /\ 0 <= off /\ off mod 10 = 0
         /\ Postgrest.ordering q = [(LegacyApp.sortBy s, ascending)].
Proof.
  intros events remote w s.
  assert (Hok : legacy_session_ok s).
  { subst s. unfold Session.legacy_run.
    assert (H0 : legacy_session_ok LegacyApp.initial) by (split; [cbn; lia | cbn; tauto]).
    revert H0. generalize LegacyApp.initial.
    induction events as [|e events IH]; intros s0 H0; [exact H0|].
    cbn [fold_left]. apply IH, legacy_session_step_ok, H0. }
  destruct Hok as [Hp Hs].
  split; [exact Hp|]. split.
  - cbn in Hs. cbn. intuition.
  - exists (Spec.reference_request (LegacyApp_queryState s)),
           ((LegacyApp.page s - 1) * 10),
           (match LegacyApp.sortOrder s with asc => true | desc => false end).
    rewrite LegacyApp_fetchProducts_exec. cbn [LegacyApp.sent].
    repeat split; try lia.
    apply Z.mod_mul. lia.
Qed.

(* ------------------------------------------------------------------ *)
(** ** Debounced and immediate refetching *)
(* ------------------------------------------------------------------ *)

Lemma render_at_rest_same (raw : string) (t : Z) (h : UseDebounce.Hook string) :
  hook_at_rest raw h -> UseDebounce.render String.eqb t raw 400 h = h.
Proof.
  intros (Ht & Hv & _ & Hd). unfold UseDebounce.render, UseDebounce.tick.
  rewrite Ht. cbv zeta. rewrite Hv, Hd, String.eqb_refl. reflexivity.
Qed.

Lemma render_at_rest_change (raw v : string) (t : Z) (h : UseDebounce.Hook string) :
  hook_at_rest raw h -> (v =? raw)%string = false ->
  UseDebounce.render String.eqb t v 400 h =
    UseDebounce.mkHook v 400 raw (Some (t + 400, v)) (UseDebounce.propagated h).
Proof.
  intros (Ht & Hv & Hdv & Hd) Hneq. unfold UseDebounce.render, UseDebounce.tick.
  rewrite Ht. cbv zeta. rewrite Hv, Hneq, Hdv. reflexivity.
Qed.

Lemma render_pending (raw v : string) (t1 t : Z) (p : list (Z * string)) :
  t < t1 + 400 ->
  UseDebounce.render String.eqb t v 400
    (UseDebounce.mkHook v 400 raw (Some (t1 + 400, v)) p) =
  UseDebounce.mkHook v 400 raw (Some (t1 + 400, v)) p.
Proof.
  intros Hlt. unfold UseDebounce.render, UseDebounce.tick. cbn.
  destruct (Z.leb_spec (t1 + 400) t); [lia|]. cbn.
  rewrite String.eqb_refl. reflexivity.
Qed.

Lemma render_due (raw v : string) (t1 t : Z) (p : list (Z * string)) :
  t1 + 400 <= t ->
  UseDebounce.render String.eqb t v 400
    (UseDebounce.mkHook v 400 raw (Some (t1 + 400, v)) p) =
  UseDebounce.mkHook v 400 v None (p ++ [(t1 + 400, v)]).
Proof.
  intros Hle. unfold UseDebounce.render, UseDebounce.tick. cbn.
  destruct (Z.leb_spec (t1 + 400) t); [|lia]. cbn.
  rewrite String.eqb_refl. reflexivity.
Qed.

Lemma update_effects_sent remote (prev r : InventoryPage.Store) (w : InventoryPage.World) :
  InventoryPage.sent (execState (InventoryPage.update_effects remote prev r) w) =
    (InventoryPage.sent w
     ++ (if InventoryPage.same_deps prev r then []
         else [Spec.reference_request (InventoryPage_queryState r)]))%list.
Proof.
  unfold InventoryPage.update_effects.
  destruct (InventoryPage.same_deps prev r).
  - cbn. now rewrite app_nil_r.
  - rewrite InventoryPage_fetchProducts_exec. reflexivity.
Qed.

Lemma same_deps_refl (s : InventoryPage.Store) : InventoryPage.same_deps s s = true.
Proof.
  unfold InventoryPage.same_deps.
  rewrite Z.eqb_refl, !String.eqb_refl, Bool.eqb_reflx.
  destruct (InventoryPage.sortOrder s); reflexivity.
Qed.

Lemma rerender_hooks (t : Z) (s : InventoryPage.Store) :
  InventoryPage.search_debounce (InventoryPage.rerender t s) =
    UseDebounce.render String.eqb t (InventoryPage.search s) 400
      (InventoryPage.search_debounce s)
  /\ InventoryPage.minPrice_debounce (InventoryPage.rerender t s) =
       UseDebounce.render String.eqb t (InventoryPage.minPrice s) 400
         (InventoryPage.minPrice_debounce s)
  /\ InventoryPage.maxPrice_debounce (InventoryPage.rerender t s) =
       UseDebounce.render String.eqb t (InventoryPage.maxPrice s) 400
         (InventoryPage.maxPrice_debounce s).
Proof. repeat split. Qed.

Lemma rerender_raw (t : Z) (s : InventoryPage.Store) :
  InventoryPage.search (InventoryPage.rerender t s) = InventoryPage.search s
  /\ InventoryPage.minPrice (InventoryPage.rerender t s) = InventoryPage.minPrice s
  /\ InventoryPage.maxPrice (InventoryPage.rerender t s) = InventoryPage.maxPrice s.
Proof. repeat split. Qed.

(** The query state of a re-render, from the raw fields and the hooks. *)
Lemma queryState_rerender (t : Z) (s : InventoryPage.Store) :
  InventoryPage_queryState (InventoryPage.rerender t s) =
    {| Spec.search := UseDebounce.useDebounce (InventoryPage.search_debounce (InventoryPage.rerender t s));
       Spec.category := InventoryPage.category s;
       Spec.minPrice := UseDebounce.useDebounce (InventoryPage.minPrice_debounce (InventoryPage.rerender t s));
       Spec.maxPrice := UseDebounce.useDebounce (InventoryPage.maxPrice_debounce (InventoryPage.rerender t s));
       Spec.inStockOnly := InventoryPage.inStockOnly s;
       Spec.sortField := InventoryPage.sortBy s;
       Spec.sortDirection := InventoryPage.sortOrder s;
       Spec.page := InventoryPage.page s |}.
Proof. reflexivity. Qed.

Lemma queryState_same_deps (a b : InventoryPage.Store) :
  InventoryPage_queryState a = InventoryPage_queryState b ->
  InventoryPage.same_deps a b = true.
Proof.
  unfold InventoryPage_queryState, InventoryPage.same_deps. intros H.
  injection H as Hs Hc Hmin Hmax Hst Hby Hord Hp.
  rewrite Hs, Hc, Hmin, Hmax, Hst, Hby, Hord, Hp.
  rewrite Z.eqb_refl, !String.eqb_refl, Bool.eqb_reflx.
  destruct (InventoryPage.sortOrder b); reflexivity.
Qed.

Lemma same_deps_false (a b : InventoryPage.Store) :
  InventoryPage_queryState a <> InventoryPage_queryState b ->
  InventoryPage.same_deps a b = false.
Proof.
  intros H. destruct (InventoryPage.same_deps a b) eqn:E; [|reflexivity].
  apply same_deps_queryState in E. contradiction.
Qed.

Lemma queryState_at_rest (s : InventoryPage.Store) :
  at_rest s ->
  InventoryPage_queryState s =
    {| Spec.search := InventoryPage.search s;
       Spec.category := InventoryPage.category s;
       Spec.minPrice := InventoryPage.minPrice s;
       Spec.maxPrice := InventoryPage.maxPrice s;
       Spec.inStockOnly := InventoryPage.inStockOnly s;
       Spec.sortField := InventoryPage.sortBy s;
       Spec.sortDirection := InventoryPage.sortOrder s;
       Spec.page := InventoryPage.page s |}.
Proof.
  intros ((_ & _ & Hs & _) & (_ & _ & Hmin & _) & (_ & _ & Hmax & _)).
  unfold InventoryPage_queryState, InventoryPage.debouncedSearch,
    InventoryPage.debouncedMinPrice, InventoryPage.debouncedMaxPrice,
    UseDebounce.useDebounce.
  rewrite Hs, Hmin, Hmax. reflexivity.
Qed.

(** X9. Typing into the minimum price box of a page at rest sends nothing
    by itself: the render that follows the keystroke, and every re-render
    during the next 400 ms, leave the dependencies of the fetch as they were.
    The first render 400 ms or more after the keystroke sends exactly one
    request, the one of the former query state with the new minimum price,
    and leaves the page at rest again. *)
Theorem typing_a_price_fetches_once_after_the_quiet_period :
  forall (remote : nat -> Postgrest.Request -> Postgrest.Response Product)
         (s : InventoryPage.Store) (v : string) (t1 t t2 : Z) (w : InventoryPage.World),
    at_rest s ->
    (v =? InventoryPage.minPrice s)%string = false ->
    t1 <= t < t1 + 400 ->
    t1 + 400 <= t2 ->
    let s1 := InventoryPage.rerender t1
                (InventoryPage.handle (InventoryPage.filterPanel_onChangeMinPrice v) s) in
    let s1' := InventoryPage.rerender t s1 in
    let s2 := InventoryPage.rerender t2 s1' in
    InventoryPage.sent (execState (InventoryPage.update_effects remote s s1) w) =
      InventoryPage.sent w
    /\ InventoryPage.sent (execState (InventoryPage.update_effects remote s1 s1') w) =
         InventoryPage.sent w
    /\ InventoryPage.sent (execState (InventoryPage.update_effects remote s1' s2) w) =
         (InventoryPage.sent w
          ++ [Spec.reference_request
                {| Spec.search := InventoryPage.search s;
                   Spec.category := InventoryPage.category s;
                   Spec.minPrice := v;
                   Spec.maxPrice := InventoryPage.maxPrice s;
                   Spec.inStockOnly := InventoryPage.inStockOnly s;
                   Spec.sortField := InventoryPage.sortBy s;
                   Spec.sortDirection := InventoryPage.sortOrder s;
                   Spec.page := InventoryPage.page s |}])%list
    /\ at_rest s2.
Proof.
  intros remote s v t1 t t2 w Hrest Hneq Ht Ht2 s1 s1' s2.
  pose proof (queryState_at_rest s Hrest) as HQ.
  destruct Hrest as (Hs & Hmin & Hmax).
  set (x := InventoryPage.with_minPrice v s).
  assert (Hs1 : s1 = InventoryPage.rerender t1 x) by reflexivity.
  set (pending := UseDebounce.mkHook v 400 (InventoryPage.minPrice s) (Some (t1 + 400, v))
                    (UseDebounce.propagated (InventoryPage.minPrice_debounce s))).
  (* the hooks after the keystroke *)
  assert (H1 : InventoryPage.search_debounce s1 = InventoryPage.search_debounce s
               /\ InventoryPage.minPrice_debounce s1 = pending
               /\ InventoryPage.maxPrice_debounce s1 = InventoryPage.maxPrice_debounce s).
  { rewrite Hs1. destruct (rerender_hooks t1 x) as (E1 & E2 & E3).
    rewrite E1, E2, E3. subst x.
    cbn [InventoryPage.search InventoryPage.minPrice InventoryPage.maxPrice
         InventoryPage.with_minPrice InventoryPage.search_debounce
         InventoryPage.minPrice_debounce InventoryPage.maxPrice_debounce].
    rewrite (render_at_rest_same _ _ _ Hs), (render_at_rest_same _ _ _ Hmax),
      (render_at_rest_change _ _ _ _ Hmin Hneq).
    repeat split. }
  destruct H1 as (H1s & H1min & H1max).
  assert (R1 : InventoryPage.search s1 = InventoryPage.search s
               /\ InventoryPage.minPrice s1 = v
               /\ InventoryPage.maxPrice s1 = InventoryPage.maxPrice s) by (repeat split).
  destruct R1 as (R1s & R1min & R1max).
  (* the hooks during the quiet period *)
  assert (H1' : InventoryPage.search_debounce s1' = InventoryPage.search_debounce s
                /\ InventoryPage.minPrice_debounce s1' = pending
                /\ InventoryPage.maxPrice_debounce s1' = InventoryPage.maxPrice_debounce s).
  { subst s1'. destruct (rerender_hooks t s1) as (E1 & E2 & E3).
    rewrite E1, E2, E3, H1s, H1min, H1max, R1s, R1min, R1max.
    rewrite (render_at_rest_same _ _ _ Hs), (render_at_rest_same _ _ _ Hmax).
    unfold pending. rewrite render_pending by lia. repeat split. }
  destruct H1' as (H1's & H1'min & H1'max).
  (* the hooks once the quiet period is over *)
  assert (H2 : InventoryPage.search_debounce s2 = InventoryPage.search_debounce s
               /\ InventoryPage.minPrice_debounce s2 =
                    UseDebounce.mkHook v 400 v None
                      (UseDebounce.propagated (InventoryPage.minPrice_debounce s)
                       ++ [(t1 + 400, v)])
               /\ InventoryPage.maxPrice_debounce s2 = InventoryPage.maxPrice_debounce s).
  { subst s2. destruct (rerender_hooks t2 s1') as (E1 & E2 & E3).
    rewrite E1, E2, E3, H1's, H1'min, H1'max.
    change (InventoryPage.search s1') with (InventoryPage.search s).
    change (InventoryPage.minPrice s1') with v.
    change (InventoryPage.maxPrice s1') with (InventoryPage.maxPrice s).
    rewrite (render_at_rest_same _ _ _ Hs), (render_at_rest_same _ _ _ Hmax).
    unfold pending. rewrite render_due by lia. repeat split. }
  destruct H2 as (H2s & H2min & H2max).
  (* query states *)
  assert (Q1 : InventoryPage_queryState s1 = InventoryPage_queryState s).
  { rewrite Hs1, queryState_rerender, <- Hs1, H1s, H1min, H1max, HQ.
    destruct Hs as (_ & _ & Es & _), Hmax as (_ & _ & Emax & _).
    unfold UseDebounce.useDebounce. rewrite Es, Emax. reflexivity. }
  assert (Q1' : InventoryPage_queryState s1' = InventoryPage_queryState s1).
  { unfold s1' at 1. rewrite queryState_rerender. fold s1'.
    rewrite H1's, H1'min, H1'max, Q1, HQ.
    destruct Hs as (_ & _ & Es & _), Hmax as (_ & _ & Emax & _).
    unfold UseDebounce.useDebounce. rewrite Es, Emax. reflexivity. }
  assert (Q2 : InventoryPage_queryState s2 =
               {| Spec.search := InventoryPage.search s;
                  Spec.category := InventoryPage.category s;
                  Spec.minPrice := v;
                  Spec.maxPrice := InventoryPage.maxPrice s;
                  Spec.inStockOnly := InventoryPage.inStockOnly s;
                  Spec.sortField := InventoryPage.sortBy s;
                  Spec.sortDirection := InventoryPage.sortOrder s;
                  Spec.page := InventoryPage.page s |}).
  { unfold s2 at 1. rewrite queryState_rerender. fold s2.
    rewrite H2s, H2min, H2max.
    destruct Hs as (_ & _ & Es & _), Hmax as (_ & _ & Emax & _).
    unfold UseDebounce.useDebounce. rewrite Es, Emax. reflexivity. }
  rewrite !update_effects_sent.
  rewrite (queryState_same_deps s s1) by (symmetry; exact Q1).
  rewrite (queryState_same_deps s1 s1') by (symmetry; exact Q1').
  rewrite (same_deps_false s1' s2).
  - rewrite Q2, !app_nil_r.
    split; [reflexivity|]. split; [reflexivity|]. split; [reflexivity|].
    unfold at_rest. rewrite H2s, H2min, H2max.
    split; [exact Hs|]. split; [|exact Hmax].
    unfold hook_at_rest. repeat split.
  - rewrite Q1', Q1, Q2, HQ. intros E. injection E as E.
    rewrite E, String.eqb_refl in Hneq. discriminate.
Qed.

(** X10. Typing into the search box of a page at rest: the handler also
    resets the page, so on any page but the first the render that follows
    the keystroke refetches at once, page 1 of the text searched before
    (the new text is still held back); on page 1 it sends nothing.  The first
    render 400 ms or more after the keystroke then sends page 1 of the new
    text. *)
Theorem typing_a_search_refetches_page_1_then_the_new_text :
  forall (remote : nat -> Postgrest.Request -> Postgrest.Response Product)
         (s : InventoryPage.Store) (v : string) (t1 t2 : Z) (w : InventoryPage.World),
    at_rest s ->
    (v =? InventoryPage.search s)%string = false ->
    t1 + 400 <= t2 ->
    let s1 := InventoryPage.rerender t1
                (InventoryPage.handle (InventoryPage.filterPanel_onChangeSearch v) s) in
    let s2 := InventoryPage.rerender t2 s1 in
    let query (text : string) : Spec.QueryState :=
      {| Spec.search := text;
         Spec.category := InventoryPage.category s;
         Spec.minPrice := InventoryPage.minPrice s;
         Spec.maxPrice := InventoryPage.maxPrice s;
         Spec.inStockOnly := InventoryPage.inStockOnly s;
         Spec.sortField := InventoryPage.sortBy s;
         Spec.sortDirection := InventoryPage.sortOrder s;
         Spec.page := 1 |} in
    InventoryPage.sent (execState (InventoryPage.update_effects remote s s1) w) =
      (InventoryPage.sent w
       ++ (if InventoryPage.page s =? 1 then []
           else [Spec.reference_request (query (InventoryPage.search s))]))%list
    /\ InventoryPage.sent (execState (InventoryPage.update_effects remote s1 s2) w) =
         (InventoryPage.sent w ++ [Spec.reference_request (query v)])%list.
Proof.
  intros remote s v t1 t2 w Hrest Hneq Ht2 s1 s2 query.
  pose proof (queryState_at_rest s Hrest) as HQ.
  destruct Hrest as (Hs & Hmin & Hmax).
  set (x := InventoryPage.with_page 1 (InventoryPage.with_search v s)).
  assert (Hs1 : s1 = InventoryPage.rerender t1 x) by reflexivity.
  set (pending := UseDebounce.mkHook v 400 (InventoryPage.search s) (Some (t1 + 400, v))
                    (UseDebounce.propagated (InventoryPage.search_debounce s))).
  assert (H1 : InventoryPage.search_debounce s1 = pending
               /\ InventoryPage.minPrice_debounce s1 = InventoryPage.minPrice_debounce s
               /\ InventoryPage.maxPrice_debounce s1 = InventoryPage.maxPrice_debounce s).
  { rewrite Hs1. destruct (rerender_hooks t1 x) as (E1 & E2 & E3).
    rewrite E1, E2, E3. subst x.
    cbn [InventoryPage.search InventoryPage.minPrice InventoryPage.maxPrice
         InventoryPage.with_search InventoryPage.with_page InventoryPage.search_debounce
         InventoryPage.minPrice_debounce InventoryPage.maxPrice_debounce].
    rewrite (render_at_rest_same _ _ _ Hmin), (render_at_rest_same _ _ _ Hmax),
      (render_at_rest_change _ _ _ _ Hs Hneq).
    repeat split. }
  destruct H1 as (H1s & H1min & H1max).
  assert (H2 : InventoryPage.search_debounce s2 =
                 UseDebounce.mkHook v 400 v None
                   (UseDebounce.propagated (InventoryPage.search_debounce s)
                    ++ [(t1 + 400, v)])
               /\ InventoryPage.minPrice_debounce s2 = InventoryPage.minPrice_debounce s
               /\ InventoryPage.maxPrice_debounce s2 = InventoryPage.maxPrice_debounce s).
  { subst s2. destruct (rerender_hooks t2 s1) as (E1 & E2 & E3).
    rewrite E1, E2, E3, H1s, H1min, H1max.
    change (InventoryPage.search s1) with v.
    change (InventoryPage.minPrice s1) with (InventoryPage.minPrice s).
    change (InventoryPage.maxPrice s1) with (InventoryPage.maxPrice s).
    rewrite (render_at_rest_same _ _ _ Hmin), (render_at_rest_same _ _ _ Hmax).
    unfold pending. rewrite render_due by lia. repeat split. }
  destruct H2 as (H2s & H2min & H2max).
  destruct Hmin as (_ & _ & Emin & _), Hmax as (_ & _ & Emax & _).
  assert (Q1 : InventoryPage_queryState s1 = query (InventoryPage.search s)).
  { rewrite Hs1, queryState_rerender, <- Hs1, H1s, H1min, H1max.
    unfold UseDebounce.useDebounce. rewrite Emin, Emax. reflexivity. }
  assert (Q2 : InventoryPage_queryState s2 = query v).
  { unfold s2 at 1. rewrite queryState_rerender. fold s2.
    rewrite H2s, H2min, H2max.
    unfold UseDebounce.useDebounce. rewrite Emin, Emax. reflexivity. }
  rewrite !update_effects_sent. split.
  - destruct (Z.eqb_spec (InventoryPage.page s) 1) as [E|E].
    + rewrite (queryState_same_deps s s1); [reflexivity|].
      rewrite Q1, HQ. unfold query. rewrite E. reflexivity.
    + rewrite (same_deps_false s s1); [now rewrite Q1|].
      rewrite Q1, HQ. unfold query. intros H. injection H as H. contradiction.
  - rewrite (same_deps_false s1 s2); [now rewrite Q2|].
    rewrite Q1, Q2. unfold query. intros H. injection H as H.
    rewrite <- H, String.eqb_refl in Hneq. discriminate.
Qed.

Lemma legacy_update_effects_sent remote (prev r : LegacyApp.Store) (w : LegacyApp.World) :
  LegacyApp.sent (execState (Session.legacy_update_effects remote prev r) w) =
    (LegacyApp.sent w
     ++ (if Session.legacy_same_deps prev r then []
         else [Spec.reference_request (LegacyApp_queryState r)]))%list.
Proof.
  unfold Session.legacy_update_effects.
  destruct (Session.legacy_same_deps prev r).
  - cbn. now rewrite app_nil_r.
  - rewrite LegacyApp_fetchProducts_exec. reflexivity.
Qed.

(** X11. The monolithic page has no debounce: every keystroke that changes
    the search text, or the minimum price text, makes the render that follows
    send a request at once, with the new text in it (and page 1 for the
    search). *)
Theorem legacy_page_fetches_on_every_keystroke :
  forall (remote : nat -> Postgrest.Request -> Postgrest.Response Product)
         (s : LegacyApp.Store) (v : string) (w : LegacyApp.World),
    let typed := LegacyApp.handle (LegacyApp.onChangeSearch v) s in
    let priced := LegacyApp.handle (LegacyApp.onChangeMinPrice v) s in
    ((v =? LegacyApp.search s)%string = false ->
     LegacyApp.sent (execState (Session.legacy_update_effects remote s typed) w) =
       (LegacyApp.sent w
        ++ [Spec.reference_request
              {| Spec.search := v;
                 Spec.category := LegacyApp.category s;
                 Spec.minPrice := LegacyApp.minPrice s;
                 Spec.maxPrice := LegacyApp.maxPrice s;
                 Spec.inStockOnly := LegacyApp.inStockOnly s;
                 Spec.sortField := LegacyApp.sortBy s;
                 Spec.sortDirection := LegacyApp.sortOrder s;
                 Spec.page := 1 |}])%list)
    /\ ((v =? LegacyApp.minPrice s)%string = false ->
        LegacyApp.sent (execState (Session.legacy_update_effects remote s priced) w) =
          (LegacyApp.sent w
           ++ [Spec.reference_request
                 {| Spec.search := LegacyApp.search s;
                    Spec.category := LegacyApp.category s;
                    Spec.minPrice := v;
                    Spec.maxPrice := LegacyApp.maxPrice s;
                    Spec.inStockOnly := LegacyApp.inStockOnly s;
                    Spec.sortField := LegacyApp.sortBy s;
                    Spec.sortDirection := LegacyApp.sortOrder s;
                    Spec.page := LegacyApp.page s |}])%list).
Proof.
  intros remote s v w typed priced. split; intros Hneq;
    rewrite legacy_update_effects_sent.
  - assert (E : Session.legacy_same_deps s typed = false).
    { unfold Session.legacy_same_deps. subst typed. cbn.
      rewrite String.eqb_sym, Hneq, andb_false_r. reflexivity. }
    rewrite E. reflexivity.
  - assert (E : Session.legacy_same_deps s priced = false).
    { unfold Session.legacy_same_deps. subst priced. cbn.
      rewrite (String.eqb_sym (LegacyApp.minPrice s) v), Hneq, !andb_false_r.
      reflexivity. }
    rewrite E. reflexivity.
Qed.

(* ------------------------------------------------------------------ *)
(** ** What the user sees after a fetch *)
(* ------------------------------------------------------------------ *)

(** X12. A failed fetch followed by a retry that succeeds leaves the store
    exactly as a first fetch with the successful response would have: the
    failure survives only as a line on the console.  The banner shows the
    fixed message after the failure and is gone after the retry. *)
Theorem successful_retry_erases_the_failure :
  forall (remote : nat -> Postgrest.Request -> Postgrest.Response Product)
         (r : InventoryPage.Store) (w : InventoryPage.World)
         (e : Postgrest.PostgrestError),
    let q := Spec.reference_request (InventoryPage_queryState r) in
    let n := length (InventoryPage.sent w) in
    Postgrest.error (remote n q) = Some e ->
    Postgrest.error (remote (S n) q) = None ->
    let w1 := execState (InventoryPage.fetchProducts remote r) w in
    let w2 := execState (InventoryPage.fetchProducts remote r) w1 in
    InventoryPage.store w2 =
      InventoryPage.store
        (execState (InventoryPage.fetchProducts (fun _ => remote (S n)) r) w)
    /\ View.inventoryBanner (InventoryPage.store w1) =
         Some "Failed to load products. Please check your connection and try again."
    /\ View.inventoryBanner (InventoryPage.store w2) = None
    /\ InventoryPage.console w2 =
         (InventoryPage.console w ++ [("Supabase fetch error:", Postgrest.message e)])%list.
Proof.
  intros remote r w e q n Hfail Hok w1 w2.
  assert (Hw1 : w1 = execState (InventoryPage.fetchProducts remote r) w) by reflexivity.
  rewrite InventoryPage_fetchProducts_exec in Hw1. fold q n in Hw1.
  assert (Hw2 : w2 = execState (InventoryPage.fetchProducts remote r) w1) by reflexivity.
  rewrite InventoryPage_fetchProducts_exec in Hw2. fold q in Hw2.
  assert (Hn : length (InventoryPage.sent w1) = S n).
  { rewrite Hw1. cbn [InventoryPage.sent]. rewrite length_app. cbn. subst n. lia. }
  rewrite Hn, Hok in Hw2.
  rewrite InventoryPage_fetchProducts_exec. fold q n.
  rewrite Hw2, Hw1. cbn [InventoryPage.store InventoryPage.console].
  unfold View.inventoryBanner, InventoryPage_settle. rewrite Hfail, Hok.
  repeat split.
Qed.

(** X13. When a fetch has run to its end, the table body is never the
    loading row: it is the empty row when there are no products and the
    product rows otherwise; and the error banner is shown, with the fixed
    message, exactly when the round trip failed. *)
Theorem after_a_fetch_rows_or_empty_and_banner_iff_failed :
  forall (remote : nat -> Postgrest.Request -> Postgrest.Response Product)
         (r : InventoryPage.Store) (w : InventoryPage.World),
    let resp := remote (length (InventoryPage.sent w))
                  (Spec.reference_request (InventoryPage_queryState r)) in
    let s' := InventoryPage.store (execState (InventoryPage.fetchProducts remote r) w) in
    View.inventoryBody s' =
      match InventoryPage.products s' with
      | [] => View.EmptyRow
      | _ :: _ => View.Rows (InventoryPage.products s')
      end
    /\ View.inventoryBanner s' =
         match Postgrest.error resp with
         | Some _ => Some "Failed to load products. Please check your connection and try again."
         | None => None
         end
    /\ InventoryPage.products s' =
         match Postgrest.error resp with
         | Some _ => InventoryPage.products (InventoryPage.store w)
         | None => JS.or_array (Postgrest.data resp) []
         end.
Proof.
  intros remote r w resp s'.
  assert (Hs' : s' = InventoryPage_settle resp (InventoryPage.store w)).
  { subst s'. rewrite InventoryPage_fetchProducts_exec. reflexivity. }
  rewrite Hs'. unfold InventoryPage_settle, View.inventoryBody, View.inventoryBanner,
    View.tableBody.
  destruct (Postgrest.error resp); cbn.
  - destruct (InventoryPage.products (InventoryPage.store w)); repeat split.
  - destruct (JS.or_array (Postgrest.data resp) []); repeat split.
Qed.

(** X14. The category dropdown after a category fetch that brought rows:
    its first option is "All", its options are "All" and the categories of
    the rows, and no option is offered twice unless some row's category is
    itself the text "All". *)
Theorem category_options_after_fetch :
  forall (remote : nat -> Postgrest.Request -> Postgrest.Response CategoryRow)
         (w : InventoryPage.World) (rows : list CategoryRow),
    Postgrest.data (remote (length (InventoryPage.sent w)) Spec.categories_request) =
      Some rows ->
    let options :=
      InventoryPage.filterPanel_categoryOptions
        (InventoryPage.store (execState (InventoryPage.fetchCategories remote) w)) in
    hd "" options = "All"
    /\ (forall c, In c options <-> c = "All" \/ In c (map row_category rows))
    /\ (NoDup options <-> ~ In "All" (map row_category rows)).
Proof.
  intros remote w rows Hdata options.
  assert (Ho : options = "All" :: InventoryPage.Set_spread (map row_category rows)).
  { subst options. rewrite fetchCategories_exec. cbn [InventoryPage.store].
    rewrite Hdata. reflexivity. }
  rewrite Ho. unfold InventoryPage.Set_spread.
  assert (Hin : forall c, In c (fold_left InventoryPage.Set_add (map row_category rows) [])
                          <-> In c (map row_category rows)).
  { intros c. rewrite Set_fold_In. cbn. tauto. }
  split; [reflexivity|]. split.
  - intros c. cbn [In]. rewrite Hin. split; intros [H|H]; auto.
  - split.
    + intros Hnd Hall. inversion Hnd as [|? ? Hnot _]; subst.
      apply Hnot, Hin, Hall.
    + intros Hnot. constructor.
      * rewrite Hin. exact Hnot.
      * apply Set_fold_NoDup. constructor.
Qed.

(** X15. Two clicks on the same column header, with the render between
    them: on the active column they restore the store as it was; on another
    column they leave that column active in descending order. *)
Theorem two_clicks_on_a_header :
  forall (s : InventoryPage.Store) (colKey : string),
    let s1 := InventoryPage.handle (InventoryPage.productTable_handleSort s colKey) s in
    let s2 := InventoryPage.handle (InventoryPage.productTable_handleSort s1 colKey) s1 in
    InventoryPage.sortBy s2 = colKey
    /\ InventoryPage.sortOrder s2 =
         (if (InventoryPage.sortBy s =? colKey)%string then InventoryPage.sortOrder s
          else desc)
    /\ (InventoryPage.sortBy s = colKey -> s2 = s).
Proof.
  intros s colKey s1 s2. subst s2 s1. rewrite !handleSort_store.
  cbn [InventoryPage.sortBy InventoryPage.sortOrder InventoryPage.with_sortBy
       InventoryPage.with_sortOrder].
  rewrite String.eqb_refl.
  destruct (String.eqb_spec (InventoryPage.sortBy s) colKey) as [E|E];
    destruct (InventoryPage.sortOrder s) eqn:Eo; cbn.
  all: repeat split; try contradiction.
  all: intros _; destruct s; cbn in *; subst; reflexivity.
Qed.

(* ------------------------------------------------------------------ *)
(** ** The further properties at the scenarios *)
(* ------------------------------------------------------------------ *)

Lemma rested_is_at_rest : at_rest rested /\ at_rest rested_page_2.
Proof. vm_compute. repeat split. Qed.

Lemma pagination_range_is_the_requested_window_witness :
  1 <= InventoryPage.page Scenario.on_page_3
  /\ (InventoryPage.page Scenario.on_page_3 - 1) * 10
       < InventoryPage.totalCount Scenario.on_page_3
  /\ exists (q : Postgrest.Request) (off lim : Z),
       InventoryPage.sent
         (execState (InventoryPage.fetchProducts Scenario.lamp_store Scenario.on_page_3)
            (Scenario.world Scenario.on_page_3)) =
         (InventoryPage.sent (Scenario.world Scenario.on_page_3) ++ [q])%list
       /\ Postgrest.offset q = Some off
       /\ Postgrest.limit q = Some lim
       /\ Pagination.rangeFrom (InventoryPage.page Scenario.on_page_3)
            (InventoryPage.totalCount Scenario.on_page_3) = off + 1.
Proof.
  assert (H1 : 1 <= InventoryPage.page Scenario.on_page_3) by (vm_compute; discriminate).
  assert (H2 : (InventoryPage.page Scenario.on_page_3 - 1) * 10
               < InventoryPage.totalCount Scenario.on_page_3) by (vm_compute; reflexivity).
  split; [exact H1|]. split; [exact H2|].
  destruct (pagination_range_is_the_requested_window Scenario.lamp_store
              Scenario.on_page_3 (Scenario.world Scenario.on_page_3) H1 H2)
    as (q & off & lim & Hsent & Hoff & Hlim & Hfirst & _).
  exists q, off, lim. repeat split; assumption.
Defined.

Lemma every_row_is_on_exactly_one_page_witness :
  1 <= 15 <= InventoryPage.totalCount Scenario.mounted
  /\ exists p : Z,
       1 <= p <= InventoryPage.totalPages Scenario.mounted
       /\ Pagination.rangeFrom p (InventoryPage.totalCount Scenario.mounted) <= 15
          <= Pagination.rangeTo p (InventoryPage.totalCount Scenario.mounted).
Proof.
  assert (H : 1 <= 15 <= InventoryPage.totalCount Scenario.mounted)
    by (vm_compute; split; discriminate).
  split; [exact H|].
  destruct (every_row_is_on_exactly_one_page Scenario.mounted 15 H) as (p & Hp & _).
  exists p. exact Hp.
Defined.

Lemma pagination_buttons_keep_page_in_range_witness :
  1 <= InventoryPage.page rested_page_2 <= InventoryPage.totalPages rested_page_2
  /\ 1 <= InventoryPage.page
            (InventoryPage.handle (InventoryPage.pagination_clickNext rested_page_2)
               rested_page_2)
       <= InventoryPage.totalPages
            (InventoryPage.handle (InventoryPage.pagination_clickNext rested_page_2)
               rested_page_2).
Proof.
  assert (H : 1 <= InventoryPage.page rested_page_2
              <= InventoryPage.totalPages rested_page_2)
    by (vm_compute; split; discriminate).
  split; [exact H|].
  destruct (pagination_buttons_keep_page_in_range rested_page_2 H) as (_ & (Hn & _) & _).
  exact Hn.
Defined.

Lemma next_and_previous_undo_each_other_witness :
  1 <= InventoryPage.page rested_page_2 <= InventoryPage.totalPages rested_page_2
  /\ InventoryPage.pagination_nextDisabled rested_page_2 = false
  /\ InventoryPage.page rested_page_2 <> 1
  /\ InventoryPage.handle
       (InventoryPage.pagination_clickPrev
          (InventoryPage.handle (InventoryPage.pagination_clickNext rested_page_2)
             rested_page_2))
       (InventoryPage.handle (InventoryPage.pagination_clickNext rested_page_2)
          rested_page_2) = rested_page_2
  /\ InventoryPage.handle
       (InventoryPage.pagination_clickNext
          (InventoryPage.handle (InventoryPage.pagination_clickPrev rested_page_2)
             rested_page_2))
       (InventoryPage.handle (InventoryPage.pagination_clickPrev rested_page_2)
          rested_page_2) = rested_page_2.
Proof.
  assert (H : 1 <= InventoryPage.page rested_page_2
              <= InventoryPage.totalPages rested_page_2)
    by (vm_compute; split; discriminate).
  assert (Hn : InventoryPage.pagination_nextDisabled rested_page_2 = false)
    by (vm_compute; reflexivity).
  assert (Hp : InventoryPage.page rested_page_2 <> 1) by (vm_compute; discriminate).
  destruct (next_and_previous_undo_each_other rested_page_2 H) as (A & B).
  split; [exact H|]. split; [exact Hn|]. split; [exact Hp|].
  split; [exact (A Hn) | exact (B Hp)].
Defined.

Lemma useDebounce_output_catches_up_with_input_witness :
  Hook_reachable String.eqb 0 (UseDebounce.mount 0 "" 400)
  /\ UseDebounce.useDebounce
       (UseDebounce.tick 1400
          (UseDebounce.render String.eqb 1000 "lamp" 400 (UseDebounce.mount 0 "" 400))) =
     "lamp".
Proof.
  assert (Hr : Hook_reachable String.eqb 0 (UseDebounce.mount 0 "" 400))
    by apply reach_mount.
  split; [exact Hr|].
  assert (Hsound : forall a b : string, (a =? b)%string = true -> a = b)
    by (intros a b; apply String.eqb_eq).
  destruct (useDebounce_output_catches_up_with_input string String.eqb 0 1000 1400
              "lamp" 400 (UseDebounce.mount 0 "" 400) Hsound Hr
              ltac:(lia) ltac:(vm_compute; discriminate)) as (H & _).
  exact H.
Defined.

Lemma useDebounce_silent_after_unmount_witness :
  UseDebounce.timer (UseDebounce.mount 0 "x" 400) = Some (400, "x")
  /\ UseDebounce.propagated
       (UseDebounce.tick 500 (UseDebounce.unmount 100 (UseDebounce.mount 0 "x" 400))) =
     UseDebounce.propagated (UseDebounce.mount 0 "x" 400).
Proof.
  split; [reflexivity|].
  destruct (useDebounce_silent_after_unmount string 100 500 400 "x"
              (UseDebounce.mount 0 "x" 400) eq_refl ltac:(lia) ltac:(lia))
    as (_ & _ & H & _).
  exact H.
Defined.

Lemma typing_a_price_fetches_once_after_the_quiet_period_witness :
  at_rest rested
  /\ ("50" =? InventoryPage.minPrice rested)%string = false
  /\ at_rest
       (InventoryPage.rerender 1400
          (InventoryPage.rerender 1200
             (InventoryPage.rerender 1000
                (InventoryPage.handle (InventoryPage.filterPanel_onChangeMinPrice "50")
                   rested)))).
Proof.
  assert (Hr : at_rest rested) by apply rested_is_at_rest.
  assert (Hn : ("50" =? InventoryPage.minPrice rested)%string = false)
    by (vm_compute; reflexivity).
  split; [exact Hr|]. split; [exact Hn|].
  destruct (typing_a_price_fetches_once_after_the_quiet_period Scenario.lamp_store rested
              "50" 1000 1200 1400 (Scenario.world rested) Hr Hn
              ltac:(lia) ltac:(lia)) as (_ & _ & _ & H).
  exact H.
Defined.

Lemma typing_a_search_refetches_page_1_then_the_new_text_witness :
  at_rest rested_page_2
  /\ ("lamp" =? InventoryPage.search rested_page_2)%string = false
  /\ exists q : Postgrest.Request,
       InventoryPage.sent
         (execState
            (InventoryPage.update_effects Scenario.lamp_store
               (InventoryPage.rerender 1000
                  (InventoryPage.handle (InventoryPage.filterPanel_onChangeSearch "lamp")
                     rested_page_2))
               (InventoryPage.rerender 1400
                  (InventoryPage.rerender 1000
                     (InventoryPage.handle (InventoryPage.filterPanel_onChangeSearch "lamp")
                        rested_page_2))))
            (Scenario.world rested_page_2)) =
         (InventoryPage.sent (Scenario.world rested_page_2) ++ [q])%list.
Proof.
  assert (Hr : at_rest rested_page_2) by apply rested_is_at_rest.
  assert (Hn : ("lamp" =? InventoryPage.search rested_page_2)%string = false)
    by (vm_compute; reflexivity).
  split; [exact Hr|]. split; [exact Hn|].
  destruct (typing_a_search_refetches_page_1_then_the_new_text Scenario.lamp_store
              rested_page_2 "lamp" 1000 1400 (Scenario.world rested_page_2) Hr Hn
              ltac:(lia)) as (_ & H).
  eexists. exact H.
Defined.

Lemma legacy_page_fetches_on_every_keystroke_witness :
  ("50" =? LegacyApp.search LegacyApp.initial)%string = false
  /\ ("50" =? LegacyApp.minPrice LegacyApp.initial)%string = false
  /\ exists q1 q2 : Postgrest.Request,
       LegacyApp.sent
         (execState
            (Session.legacy_update_effects Scenario.lamp_store LegacyApp.initial
               (LegacyApp.handle (LegacyApp.onChangeSearch "50") LegacyApp.initial))
            (Scenario.legacy_world LegacyApp.initial)) =
         (LegacyApp.sent (Scenario.legacy_world LegacyApp.initial) ++ [q1])%list
       /\ LegacyApp.sent
            (execState
               (Session.legacy_update_effects Scenario.lamp_store LegacyApp.initial
                  (LegacyApp.handle (LegacyApp.onChangeMinPrice "50") LegacyApp.initial))
               (Scenario.legacy_world LegacyApp.initial)) =
            (LegacyApp.sent (Scenario.legacy_world LegacyApp.initial) ++ [q2])%list.
Proof.
  split; [reflexivity|]. split; [reflexivity|].
  destruct (legacy_page_fetches_on_every_keystroke Scenario.lamp_store LegacyApp.initial
              "50" (Scenario.legacy_world LegacyApp.initial)) as (A & B).
  eexists. eexists. split; [exact (A eq_refl) | exact (B eq_refl)].
Defined.

Lemma successful_retry_erases_the_failure_witness :
  let q := Spec.reference_request (InventoryPage_queryState rested) in
  let w := Scenario.world rested in
  Postgrest.error (flaky_store (length (InventoryPage.sent w)) q) =
    Some (Postgrest.mkError "Failed to fetch")
  /\ Postgrest.error (flaky_store (S (length (InventoryPage.sent w))) q) = None
  /\ View.inventoryBanner
       (InventoryPage.store
          (execState (InventoryPage.fetchProducts flaky_store rested)
             (execState (InventoryPage.fetchProducts flaky_store rested) w))) = None.
Proof.
  cbv zeta.
  assert (Hf : Postgrest.error
                 (flaky_store (length (InventoryPage.sent (Scenario.world rested)))
                    (Spec.reference_request (InventoryPage_queryState rested))) =
               Some (Postgrest.mkError "Failed to fetch")) by reflexivity.
  assert (Hk : Postgrest.error
                 (flaky_store (S (length (InventoryPage.sent (Scenario.world rested))))
                    (Spec.reference_request (InventoryPage_queryState rested))) = None)
    by (vm_compute; reflexivity).
  split; [exact Hf|]. split; [exact Hk|].
  destruct (successful_retry_erases_the_failure flaky_store rested (Scenario.world rested)
              (Postgrest.mkError "Failed to fetch") Hf Hk) as (_ & _ & H & _).
  exact H.
Defined.

Lemma category_options_after_fetch_witness :
  Postgrest.data
    (Scenario.category_store
       (length (InventoryPage.sent (Scenario.world (InventoryPage.initial 0))))
       Spec.categories_request) = Some Scenario.category_rows
  /\ NoDup
       (InventoryPage.filterPanel_categoryOptions
          (InventoryPage.store
             (execState (InventoryPage.fetchCategories Scenario.category_store)
                (Scenario.world (InventoryPage.initial 0))))).
Proof.
  assert (Hd : Postgrest.data
                 (Scenario.category_store
                    (length (InventoryPage.sent (Scenario.world (InventoryPage.initial 0))))
                    Spec.categories_request) = Some Scenario.category_rows) by reflexivity.
  split; [exact Hd|].
  destruct (category_options_after_fetch Scenario.category_store
              (Scenario.world (InventoryPage.initial 0)) Scenario.category_rows Hd)
    as (_ & _ & H).
  apply H. cbn. intros [E|[E|[E|[E|[E|[E|[]]]]]]]; discriminate.
Defined.

Lemma two_clicks_on_a_header_witness :
  InventoryPage.sortBy (InventoryPage.initial 0) = "name"
  /\ InventoryPage.handle
       (InventoryPage.productTable_handleSort
          (InventoryPage.handle
             (InventoryPage.productTable_handleSort (InventoryPage.initial 0) "name")
             (InventoryPage.initial 0)) "name")
       (InventoryPage.handle
          (InventoryPage.productTable_handleSort (InventoryPage.initial 0) "name")
          (InventoryPage.initial 0)) = InventoryPage.initial 0.
Proof.
  split; [reflexivity|].
  destruct (two_clicks_on_a_header (InventoryPage.initial 0) "name") as (_ & _ & H).
  exact (H eq_refl).
Defined.

(* ------------------------------------------------------------------ *)
(** ** Malformed price input *)
(* ------------------------------------------------------------------ *)

Example number_input_values :
  NumberInput.value "50" = "50"
  /\ NumberInput.value "12.5" = "12.5"
  /\ NumberInput.value "-.5e3" = "-.5e3"
  /\ NumberInput.value "" = ""
  /\ NumberInput.value "abc" = ""
  /\ NumberInput.value "12abc" = ""
  /\ NumberInput.value "5." = ""
  /\ NumberInput.value "1e" = ""
  /\ NumberInput.value "Infinity" = ""
  /\ NumberInput.value "1e999" = "".
Proof. vm_compute. repeat split. Qed.





